(** * Text Humanization Service: the pipeline of [ml-service/main.py]

    A shallow embedding of the [TextHumanizer] class and of the streaming
    generator [generate_humanized_text], followed by the properties of the
    pipeline that hold (or fail) on it.

    The pretrained models (spaCy, BART, T5, the sentence transformer), NumPy's
    global random generator and [json.dumps] are outside the repository: the
    models are fields of a record [Models] (the global [models] dictionary of
    the source), the random generator is an explicit state, and every call
    that can raise returns in [exn + _]. *)

From Stdlib Require Import ZArith NArith List Bool Lia String Ascii.
From Stdlib Require Import Floats.PrimFloat.
From Stdlib Require Floats.SpecFloat Floats.FloatOps.
From Stdlib Require Numbers.DecimalString.
Import ListNotations.

Set Implicit Arguments.
Set Warnings "-inexact-float".

(** ** Python built-ins *)

Module Py.

(** A Python [str] is a sequence of Unicode code points. *)
Definition str : Type := list N.

(** A string literal of the source (ASCII only in [main.py]). *)
Definition lit (s : string) : str := map N_of_ascii (list_ascii_of_string s).

Definition eqb (a b : str) : bool :=
  if list_eq_dec N.eq_dec a b then true else false.

(** [len(s) > 0], the truth value of a string. *)
Definition truthy (s : str) : bool :=
  match s with [] => false | _ :: _ => true end.

(** [c.isspace()] on one code point: the characters [str.strip()] and
    [str.split()] treat as whitespace. *)
Definition isspace (c : N) : bool :=
  ((9 <=? c) && (c <=? 13) || (28 <=? c) && (c <=? 32)
   || (c =? 133) || (c =? 160) || (c =? 5760)
   || (8192 <=? c) && (c <=? 8202)
   || (c =? 8232) || (c =? 8233) || (c =? 8239) || (c =? 8287)
   || (c =? 12288))%N.

Fixpoint lstrip (s : str) : str :=
  match s with
  | [] => []
  | c :: s' => if isspace c then lstrip s' else s
  end.

Definition rstrip (s : str) : str := rev (lstrip (rev s)).

(** [s.strip()] *)
Definition strip (s : str) : str := rstrip (lstrip s).

(** Splitting at every code point that satisfies [p]; the result is never
    the empty list ([''.split('.') == ['']]). *)
Fixpoint split_on (p : N -> bool) (s : str) : list str :=
  match s with
  | [] => [[]]
  | c :: s' =>
      if p c then [] :: split_on p s'
      else match split_on p s' with
           | [] => [[c]]
           | f :: fs => (c :: f) :: fs
           end
  end.

(** [s.split(sep)] for a one-character separator. *)
Definition split (sep : N) (s : str) : list str := split_on (N.eqb sep) s.

(** [s.split()]: the maximal runs of non-whitespace characters. *)
Definition split_whitespace (s : str) : list str :=
  filter truthy (split_on isspace s).

(** [sep.join(l)] *)
Fixpoint join (sep : str) (l : list str) : str :=
  match l with
  | [] => []
  | x :: l' =>
      match l' with
      | [] => x
      | _ :: _ => x ++ sep ++ join sep l'
      end
  end.

(** [s.startswith(p)] *)
Fixpoint startswith (p s : str) : bool :=
  match p with
  | [] => true
  | a :: p' =>
      match s with
      | [] => false
      | b :: s' => (a =? b)%N && startswith p' s'
      end
  end.

(** [p in s] *)
Fixpoint contains (p s : str) : bool :=
  match s with
  | [] => startswith p []
  | _ :: s' => startswith p s || contains p s'
  end.

(** The scan of [str.replace] for a non-empty [old]: left to right, each
    match is replaced and the scan resumes after the match; [skip] counts
    the characters of the current match still to be passed over. *)
Fixpoint replace_scan (old new : str) (skip : nat) (s : str) : str :=
  match s with
  | [] => []
  | c :: s' =>
      match skip with
      | S k => replace_scan old new k s'
      | O =>
          if startswith old s
          then new ++ replace_scan old new (Nat.pred (List.length old)) s'
          else c :: replace_scan old new 0 s'
      end
  end.

(** [s.replace(old, new)]; an empty [old] matches before every character
    and at the end. *)
Definition replace (old new s : str) : str :=
  match old with
  | [] => new ++ flat_map (fun c => c :: new) s
  | _ :: _ => replace_scan old new 0 s
  end.

(** Exceptions: those the interpreter raises on the arithmetic of the
    service, and whatever a library call raises. *)
Inductive exn : Type :=
| ZeroDivisionError
| OverflowError (msg : str)
| Exception (msg : str).

(** Two evaluations in a row, each of which may raise. *)
Definition and_also (A B : Type) (r : exn + A) (k : A -> exn + B) : exn + B :=
  match r with
  | inl e => inl e
  | inr a => k a
  end.

(** Python numbers: [int] (unbounded) and [float] (IEEE binary64). A
    float64 that NumPy returns ([np.mean], [np.std]) is a [float] too. *)
Inductive number : Type :=
| PyInt (z : Z)
| PyFloat (f : float).

(** The binary64 number nearest to an integer, ties to even; infinite
    when the integer is beyond the range. *)
Definition round_Z (z : Z) : float :=
  FloatOps.SF2Prim
    (SpecFloat.binary_normalize FloatOps.prec FloatOps.emax z 0 false).

(** The least magnitude that rounds to no finite binary64 number: the
    largest float plus half a unit in its last place. *)
Definition float_overflow : Z := (2 ^ 1024 - 2 ^ 970)%Z.

(** [float(z)]: the conversion of an [int] operand. *)
Definition float_of_Z (z : Z) : exn + float :=
  if (float_overflow <=? Z.abs z)%Z
  then inl (OverflowError (lit "int too large to convert to float"))
  else inr (round_Z z).

Definition to_float (x : number) : exn + float :=
  match x with
  | PyInt z => float_of_Z z
  | PyFloat f => inr f
  end.

(** [x + y]: exact on two integers; otherwise the integer operand is
    converted, which raises when it is too large. *)
Definition add (x y : number) : exn + number :=
  match x, y with
  | PyInt a, PyInt b => inr (PyInt (a + b))
  | _, _ =>
      and_also (to_float x) (fun fx =>
      and_also (to_float y) (fun fy => inr (PyFloat (fx + fy))))
  end.

(** [x - y] *)
Definition sub (x y : number) : exn + number :=
  match x, y with
  | PyInt a, PyInt b => inr (PyInt (a - b))
  | _, _ =>
      and_also (to_float x) (fun fx =>
      and_also (to_float y) (fun fy => inr (PyFloat (fx - fy))))
  end.

(** [a < f] and [f < a] for an integer and a float: Python compares the
    exact values, without converting the integer. *)
Definition Z_ltb_float (a : Z) (f : float) : bool :=
  match FloatOps.Prim2SF f with
  | SpecFloat.S754_nan => false
  | SpecFloat.S754_infinity s => negb s
  | SpecFloat.S754_zero _ => (a <? 0)%Z
  | SpecFloat.S754_finite s m e =>
      let v := if s then Zneg m else Zpos m in
      if (0 <=? e)%Z then (a <? Z.shiftl v e)%Z
      else (Z.shiftl a (- e) <? v)%Z
  end.

Definition float_ltb_Z (f : float) (a : Z) : bool :=
  match FloatOps.Prim2SF f with
  | SpecFloat.S754_nan => false
  | SpecFloat.S754_infinity s => s
  | SpecFloat.S754_zero _ => (0 <? a)%Z
  | SpecFloat.S754_finite s m e =>
      let v := if s then Zneg m else Zpos m in
      if (0 <=? e)%Z then (Z.shiftl v e <? a)%Z
      else (v <? Z.shiftl a (- e))%Z
  end.

(** [x < y] *)
Definition lt (x y : number) : bool :=
  match x, y with
  | PyInt a, PyInt b => (a <? b)%Z
  | PyInt a, PyFloat f => Z_ltb_float a f
  | PyFloat f, PyInt b => float_ltb_Z f b
  | PyFloat f, PyFloat g => (f <? g)%float
  end.

(** [x > y] *)
Definition gt (x y : number) : bool := lt y x.

Definition SF_of_Z (z : Z) : SpecFloat.spec_float :=
  match z with
  | Z0 => SpecFloat.S754_zero false
  | Zpos p => SpecFloat.S754_finite false p 0
  | Zneg p => SpecFloat.S754_finite true p 0
  end.

(** [a / b] on integers: true division, the quotient of the exact values
    rounded once. *)
Definition truediv (a b : Z) : exn + float :=
  if (b =? 0)%Z then inl ZeroDivisionError
  else if (float_overflow * Z.abs b <=? Z.abs a)%Z
  then inl (OverflowError (lit "integer division result too large for a float"))
  else inr (FloatOps.SF2Prim
              (SpecFloat.SFdiv FloatOps.prec FloatOps.emax
                 (SF_of_Z a) (SF_of_Z b))).

(** [str(n)] of a natural number. *)
Definition str_of_nat (n : nat) : str :=
  lit (DecimalString.NilEmpty.string_of_uint (Nat.to_uint n)).

End Py.

(** ** NumPy

    The embeddings of the sentence transformer are arrays of float32
    (float64 when the model is loaded so), and NumPy computes on them in
    their own type. A scalar of either type is carried as the binary64
    number of the same value: every float32 is one, and an operation on
    float32 scalars is the binary64 operation followed by one rounding to
    24 bits. *)

Module np.
Import Py.

Inductive floating : Type := float32 | float64.

(** The float32 number nearest to a binary64 number, ties to even. *)
Definition round32 (f : float) : float :=
  match FloatOps.Prim2SF f with
  | SpecFloat.S754_finite s m e =>
      FloatOps.SF2Prim (SpecFloat.binary_round 24 128 s m e)
  | _ => f
  end.

Definition cast (t : floating) (x : float) : float :=
  match t with
  | float32 => round32 x
  | float64 => x
  end.

(** The reductions, whose order of summation is the library's own
    (pairwise blocks in NumPy, the BLAS routine behind [dot]), are taken
    as they are: [mean] and [std] of a list of integers, and [vdot], the
    sum of the products of two vectors of equal length in the type
    [dtype] of the embedding arrays. *)
Record Kernels : Type := {
  dtype : floating;
  mean : list Z -> float;
  std : list Z -> float;
  vdot : list float -> list float -> float
}.

(** The message of the [ValueError] for two vectors of different
    lengths. *)
Definition shapes_not_aligned (n m : nat) : str :=
  lit "shapes (" ++ str_of_nat n ++ lit ",) and (" ++ str_of_nat m
  ++ lit ",) not aligned: " ++ str_of_nat n ++ lit " (dim 0) != "
  ++ str_of_nat m ++ lit " (dim 0)".

(** [np.dot] of two vectors; the shapes must agree. *)
Definition dot (K : Kernels) (u v : list float) : exn + float :=
  if Nat.eqb (List.length u) (List.length v) then inr (vdot K u v)
  else inl (Exception (shapes_not_aligned (List.length u) (List.length v))).

(** [np.linalg.norm] of a vector: [sqrt(x.dot(x))]. *)
Definition linalg_norm (K : Kernels) (v : list float) : float :=
  cast (dtype K) (PrimFloat.sqrt (vdot K v v)).

(** [x * y] and [x / y] on two scalars of the type [dtype]; a zero
    divisor gives an infinity or a NaN and a warning, not an exception. *)
Definition multiply (K : Kernels) (x y : float) : float :=
  cast (dtype K) (x * y)%float.

Definition divide (K : Kernels) (x y : float) : float :=
  cast (dtype K) (x / y)%float.

(** The global random generator: the sequence of its future outputs and
    the number of draws made so far. *)
Record RandomState : Type := {
  samples : nat -> float;
  picks : nat -> nat;
  position : nat
}.

Definition advance (g : RandomState) : RandomState :=
  {| samples := samples g; picks := picks g; position := S (position g) |}.

(** [np.random.random()] *)
Definition random_random (g : RandomState) : float * RandomState :=
  (samples g (position g), advance g).

(** The element the next draw picks from a non-empty list. *)
Definition chosen (a : list str) (g : RandomState) : str :=
  nth (Nat.modulo (picks g (position g)) (List.length a)) a [].

(** [np.random.choice(a)] on a list of strings. *)
Definition random_choice (a : list str) (g : RandomState)
  : (exn + str) * RandomState :=
  match a with
  | [] => (inl (Exception (lit "'a' cannot be empty")), g)
  | _ :: _ => (inr (chosen a g), advance g)
  end.

End np.

(** ** spaCy documents *)

Module Token.
Record t : Type := {
  text : Py.str;
  pos_ : Py.str;
  lemma_ : Py.str;
  is_alpha : bool;
  is_space : bool
}.
End Token.

Module Span.
Record t : Type := {
  text : Py.str;
  tokens : list Token.t
}.
End Span.

Module Doc.
Record t : Type := {
  tokens : list Token.t;
  sents : list Span.t
}.

(** [bool(doc)]: a document is true when it has at least one token. *)
Definition truthy (doc : t) : bool :=
  match tokens doc with [] => false | _ :: _ => true end.
End Doc.

(** ** Requests, profiles and events *)

Import Py.

Record VocabComplexity : Type := {
  avg_word_length : number;
  pos_distribution : list (str * Z);
  unique_word_ratio : number
}.

(** The profile dictionary ([Dict] in the source), at the keys the service
    writes or reads, each absent or bound to a value of the type the
    analyzer produces ([common_phrases]: the [List[str]] of [UserPattern]).
    [other_keys] are the keys of the dictionary that the service never
    reads; they count for its truth value only. *)
Record Dict : Type := {
  avg_sentence_length : option number;
  sentence_length_std : option number;
  sentence_lengths : option (list Z);
  vocab_complexity : option VocabComplexity;
  sentence_structures : option (list str);
  common_phrases : option (list str);
  other_keys : list str
}.

Definition is_some (A : Type) (o : option A) : bool :=
  match o with Some _ => true | None => false end.

(** [bool(d)]: a dictionary is true when it has at least one key. *)
Definition dict_truthy (d : Dict) : bool :=
  is_some (avg_sentence_length d) || is_some (sentence_length_std d)
  || is_some (sentence_lengths d) || is_some (vocab_complexity d)
  || is_some (sentence_structures d) || is_some (common_phrases d)
  || match other_keys d with [] => false | _ :: _ => true end.

(** [d.get(key, default)] *)
Definition get (A : Type) (field : option A) (default : A) : A :=
  match field with Some v => v | None => default end.

Record HumanizationRequest : Type := {
  text : str;
  user_id : str;
  user_patterns : option Dict;
  target_style : option str;
  preserve_meaning : bool
}.

(** The payloads of the server-sent events; the framing
    [data: <json>\n\n] is left out, [DONE] is the literal sentinel. *)
Inductive event : Type :=
| progress (step message : str)
| complete (text : str) (similarity_score : float) (user_patterns : Dict)
| error (message : exn)
| DONE.

(** ** The models and the world *)

(** The entries of the global [models] dictionary that the pipeline calls.
    A generative model samples ([do_sample=True]), so it reads and advances
    a sampling state of type [T]; [bart_generate] and [auth_generate] stand
    for tokenize, [generate] and [decode] together. [semantic_encode] is
    [encode] on a one-element list, taken at index 0: a vector of the type
    [np.dtype numpy]. [json_dumps_complete] is [json.dumps] on the payload
    of the [complete] event, which raises on a value it cannot serialize:
    a [TypeError] on a score that is a NumPy float32. [numpy] is the
    library the process has loaded. *)
Record Models (T : Type) : Type := {
  numpy : np.Kernels;
  nlp : str -> exn + Doc.t;
  bart_generate : str -> T -> (exn + str) * T;
  auth_generate : str -> T -> (exn + str) * T;
  semantic_encode : str -> exn + list float;
  json_dumps_complete : str -> float -> Dict -> exn + unit
}.

Record World (T : Type) : Type := {
  np_random : np.RandomState;
  sampler : T;
  yielded : list event
}.

(** Computations that read and change the world and may raise. *)
Definition M (T A : Type) : Type := World T -> (exn + A) * World T.

Definition ret {T A : Type} (a : A) : M T A := fun w => (inr a, w).

Definition bind {T A B : Type} (m : M T A) (k : A -> M T B) : M T B :=
  fun w =>
    match m w with
    | (inl e, w') => (inl e, w')
    | (inr a, w') => k a w'
    end.

(** A call that only returns or raises. *)
Definition lift {T A : Type} (r : exn + A) : M T A := fun w => (r, w).

Declare Scope py_scope.
Delimit Scope py_scope with py.
Notation "x <- m ;; k" := (bind m (fun x => k))
  (at level 61, m at next level, right associativity) : py_scope.
Notation "m ;;; k" := (bind m (fun _ => k))
  (at level 61, right associativity) : py_scope.
Open Scope py_scope.

(** A call of a generative model. *)
Definition generate {T : Type} (model : str -> T -> (exn + str) * T)
  (prompt : str) : M T str :=
  fun w =>
    let (r, s) := model prompt (sampler w) in
    (r, {| np_random := np_random w; sampler := s; yielded := yielded w |}).

Definition np_random_random {T : Type} : M T float :=
  fun w =>
    let (x, g) := np.random_random (np_random w) in
    (inr x, {| np_random := g; sampler := sampler w; yielded := yielded w |}).

Definition np_random_choice {T : Type} (a : list str) : M T str :=
  fun w =>
    let (r, g) := np.random_choice a (np_random w) in
    (r, {| np_random := g; sampler := sampler w; yielded := yielded w |}).

(** [yield] in the generator. *)
Definition yield {T : Type} (e : event) : M T unit :=
  fun w =>
    (inr tt, {| np_random := np_random w; sampler := sampler w;
                yielded := yielded w ++ [e] |}).

(** ** class TextHumanizer

    [self] is the models dictionary the instance holds. Logging is left
    out; a method that neither raises nor touches the world is a plain
    function. *)

(** [pos_counts[pos] += 1], or [= 1] for a tag not seen yet. *)
Fixpoint count_pos (pos : str) (pos_counts : list (str * Z)) : list (str * Z) :=
  match pos_counts with
  | [] => [(pos, 1%Z)]
  | (k, n) :: rest =>
      if Py.eqb k pos then (k, (n + 1)%Z) :: rest
      else (k, n) :: count_pos pos rest
  end.

(** [len(l)] *)
Definition len (A : Type) (l : list A) : Z := Z.of_nat (List.length l).

Definition _analyze_vocabulary_complexity {T : Type} (self : Models T)
  (doc : Doc.t) : exn + VocabComplexity :=
  let alpha := filter Token.is_alpha (Doc.tokens doc) in
  let word_lengths := map (fun token => len (Token.text token)) alpha in
  let pos_counts :=
    fold_left (fun counts token => count_pos (Token.pos_ token) counts)
      (Doc.tokens doc) [] in
  let avg :=
    match word_lengths with
    | _ :: _ => PyFloat (np.mean (numpy self) word_lengths)
    | [] => PyInt 5
    end in
  let ratio :=
    if Doc.truthy doc
    then truediv
           (len (nodup (list_eq_dec N.eq_dec) (map Token.lemma_ alpha)))
           (len alpha)
    else inr 0.5%float in
  match ratio with
  | inl e => inl e
  | inr r =>
      inr {| avg_word_length := avg;
             pos_distribution := pos_counts;
             unique_word_ratio := PyFloat r |}
  end.

Definition _analyze_sentence_structures (sentences : list Span.t) : list str :=
  let structures :=
    map (fun sent =>
           join (lit " ")
             (map Token.pos_
                (filter (fun token => negb (Token.is_space token))
                   (Span.tokens sent))))
      sentences in
  firstn 10 structures.

Definition analyze_user_patterns {T : Type} (self : Models T) (text : str)
  : M T Dict :=
  doc <- lift (nlp self text) ;;
  let sentences := Doc.sents doc in
  let sentence_lengths :=
    map (fun sent => len (split_whitespace (Span.text sent))) sentences in
  let avg :=
    match sentence_lengths with
    | _ :: _ => PyFloat (np.mean (numpy self) sentence_lengths)
    | [] => PyInt 15
    end in
  let std :=
    match sentence_lengths with
    | _ :: _ => PyFloat (np.std (numpy self) sentence_lengths)
    | [] => PyInt 5
    end in
  vocab <- lift (_analyze_vocabulary_complexity self doc) ;;
  ret {| avg_sentence_length := Some avg;
         sentence_length_std := Some std;
         sentence_lengths := Some (firstn 50 sentence_lengths);
         vocab_complexity := Some vocab;
         sentence_structures :=
           Some (_analyze_sentence_structures (firstn 20 sentences));
         common_phrases := None;
         other_keys := [] |}.

(** The part of [_split_sentence] after [tokenizer.decode]. *)
Definition split_result (sentence result : str) : list str :=
  let split_sentences :=
    map (fun s => strip s ++ lit ".")
      (filter (fun s => truthy (strip s)) (split 46 result)) in
  if (1 <? len split_sentences)%Z then split_sentences else [sentence].

Definition split_prompt (sentence : str) : str :=
  lit "Rewrite this sentence into 2-3 shorter, natural sentences: "
  ++ sentence.

Definition _split_sentence {T : Type} (self : Models T) (sentence : str)
  : M T (list str) :=
  let prompt := split_prompt sentence in
  result <- generate (bart_generate self) prompt ;;
  ret (split_result sentence result).

Fixpoint restructure {T : Type} (self : Models T)
  (target_avg_length target_std : number) (sentences : list Span.t)
  : M T (list str) :=
  match sentences with
  | [] => ret []
  | sent :: rest =>
      let current_length := PyInt (len (split_whitespace (Span.text sent))) in
      longest <- lift (add target_avg_length target_std) ;;
      restructured <-
        (if gt current_length longest
         then _split_sentence self (Span.text sent)
         else
           shortest <- lift (sub target_avg_length target_std) ;;
           if lt current_length shortest
           then ret [Span.text sent]
           else ret [Span.text sent]) ;;
      more <- restructure self target_avg_length target_std rest ;;
      ret (restructured ++ more)
  end.

Definition structural_humanization {T : Type} (self : Models T)
  (text : str) (user_patterns : Dict) : M T str :=
  doc <- lift (nlp self text) ;;
  let sentences := Doc.sents doc in
  let target_avg_length := get (avg_sentence_length user_patterns) (PyInt 15) in
  let target_std := get (sentence_length_std user_patterns) (PyInt 5) in
  restructured_sentences <-
    restructure self target_avg_length target_std sentences ;;
  ret (join (lit " ") restructured_sentences).

(** The AI-typical words and their replacements, in the order of the
    dictionary literal (the order in which a Python dict iterates). *)
Definition vocab_replacements : list (str * str) :=
  [ (lit "utilize", lit "use");
    (lit "facilitate", lit "help");
    (lit "demonstrate", lit "show");
    (lit "implement", lit "do");
    (lit "consequently", lit "so");
    (lit "furthermore", lit "also");
    (lit "nevertheless", lit "but");
    (lit "comprehensive", lit "complete") ].

(** The replacement loop over a list of pairs. *)
Definition apply_replacements (pairs : list (str * str)) (text : str) : str :=
  fold_left (fun adapted_text p => replace (fst p) (snd p) adapted_text)
    pairs text.

Definition vocabulary_adaptation (text : str) (user_patterns : Dict) : str :=
  apply_replacements vocab_replacements text.

Definition authenticity_prompt (text : str) : str :=
  lit "Rewrite this text to sound more natural and human, with minor imperfections: "
  ++ text.

(** The decoded output with the prompt removed, when the prompt occurs in
    it. *)
Definition remove_prompt (prompt result : str) : str :=
  if contains prompt result then strip (replace prompt [] result) else result.

Definition authenticity_injection {T : Type} (self : Models T) (text : str)
  : M T str :=
  let prompt := authenticity_prompt text in
  result <- generate (auth_generate self) prompt ;;
  let result := remove_prompt prompt result in
  ret (if truthy result then result else text).

(** The loop of [personal_voice_integration] from index [i] on; [n] is
    [len(sentences)] of the whole list. The result is what the loop appends
    to [enhanced_sentences]. *)
Fixpoint voice_loop {T : Type} (common_phrases : list str) (n : Z) (i : Z)
  (sentences : list str) : M T (list str) :=
  match sentences with
  | [] => ret []
  | sentence :: rest =>
      appended <-
        (if truthy (strip sentence)
         then
           if ((i <? n - 1) && (0 <? len common_phrases))%Z
           then
             r <- np_random_random ;;
             if (r <? 0.3)%float
             then
               phrase <- np_random_choice common_phrases ;;
               ret [strip sentence; lit " " ++ phrase ++ lit ","]
             else ret [strip sentence]
           else ret [strip sentence]
         else ret []) ;;
      more <- voice_loop common_phrases n (i + 1) rest ;;
      ret (appended ++ more)
  end.

Definition personal_voice_integration {T : Type} (text : str)
  (user_patterns : Dict) : M T str :=
  let common_phrases := get (common_phrases user_patterns) [] in
  match common_phrases with
  | [] => ret text
  | _ :: _ =>
      let sentences := split 46 text in
      enhanced_sentences <-
        voice_loop common_phrases (len sentences) 0 sentences ;;
      ret (join (lit ". ") enhanced_sentences)
  end.

(** The cosine similarity as the source computes it: the dot product
    first, then the two norms, their product and the quotient, each in the
    type of the arrays. *)
Definition similarity_of (K : np.Kernels)
  (original_embedding modified_embedding : list float) : exn + float :=
  match np.dot K original_embedding modified_embedding with
  | inl e => inl e
  | inr d =>
      inr (np.divide K d
             (np.multiply K (np.linalg_norm K original_embedding)
                (np.linalg_norm K modified_embedding)))
  end.

Definition coherence_preservation {T : Type} (self : Models T)
  (original modified : str) : exn + (str * float) :=
  match semantic_encode self original with
  | inl e => inl e
  | inr original_embedding =>
      match semantic_encode self modified with
      | inl e => inl e
      | inr modified_embedding =>
          match similarity_of (numpy self) original_embedding
                  modified_embedding with
          | inl e => inl e
          | inr similarity =>
              if (similarity <? 0.85)%float
              then inr (original, similarity)
              else inr (modified, similarity)
          end
      end
  end.

(** ** The endpoint [/humanize-text] *)

(** The body of the [try] block of the generator. The pacing
    [asyncio.sleep(0.1)] is left out. *)
Definition humanize_steps {T : Type} (models : Models T)
  (request : HumanizationRequest) : M T unit :=
  let current_text := text request in
  yield (progress (lit "analyzing") (lit "Analyzing writing patterns...")) ;;;
  user_patterns <-
    (match user_patterns request with
     | None => analyze_user_patterns models current_text
     | Some d =>
         if negb (dict_truthy d)
         then analyze_user_patterns models current_text
         else ret d
     end) ;;
  yield (progress (lit "structural") (lit "Restructuring sentences...")) ;;;
  current_text <- structural_humanization models current_text user_patterns ;;
  yield (progress (lit "vocabulary") (lit "Adapting vocabulary...")) ;;;
  let current_text := vocabulary_adaptation current_text user_patterns in
  yield (progress (lit "authenticity") (lit "Adding natural imperfections...")) ;;;
  current_text <- authenticity_injection models current_text ;;
  yield (progress (lit "voice") (lit "Integrating personal voice...")) ;;;
  current_text <- personal_voice_integration current_text user_patterns ;;
  yield (progress (lit "coherence") (lit "Preserving coherence...")) ;;;
  r <- lift (coherence_preservation models (text request) current_text) ;;
  let (final_text, similarity_score) := r in
  lift (json_dumps_complete models final_text similarity_score user_patterns) ;;;
  yield (complete final_text similarity_score user_patterns) ;;;
  yield DONE.

(** The world a generator starts in: nothing has been yielded. *)
Definition fresh_world {T : Type} (rng : np.RandomState) (s : T) : World T :=
  {| np_random := rng; sampler := s; yielded := [] |}.

(** The events the generator yields: those of the body, and the [error]
    event of the handler when the body raises ([except Exception]). *)
Definition generate_humanized_text {T : Type} (models : Models T)
  (request : HumanizationRequest) (rng : np.RandomState) (s : T)
  : list event :=
  match humanize_steps models request (fresh_world rng s) with
  | (inr _, w') => yielded w'
  | (inl e, w') => yielded w' ++ [error e]
  end.

(** ** Notions used in the statements *)

(** Every pair replaces a word by a strictly shorter one. *)
Definition shrinking (pairs : list (str * str)) : Prop :=
  Forall (fun p => List.length (snd p) < List.length (fst p)) pairs.

(** No word to be replaced occurs in the text. *)
Definition free_of (pairs : list (str * str)) (s : str) : Prop :=
  Forall (fun p => contains (fst p) s = false) pairs.

(** The number of non-whitespace characters of a text, and of the
    concatenation of a list of fragments. *)
Definition nonspace_length (s : str) : nat :=
  List.length (filter (fun c => negb (isspace c)) s).

Definition content_length (fragments : list str) : nat :=
  nonspace_length (List.concat fragments).

(** The fragments of the decoded output that [_split_sentence] keeps. *)
Definition nonblank_fragments (result : str) : list str :=
  filter (fun s => truthy (strip s)) (split 46 result).

(** The six progress events, in the order of the source. *)
Definition progress_events : list event :=
  [ progress (lit "analyzing") (lit "Analyzing writing patterns...");
    progress (lit "structural") (lit "Restructuring sentences...");
    progress (lit "vocabulary") (lit "Adapting vocabulary...");
    progress (lit "authenticity") (lit "Adding natural imperfections...");
    progress (lit "voice") (lit "Integrating personal voice...");
    progress (lit "coherence") (lit "Preserving coherence...") ].

Definition is_progress (e : event) : Prop :=
  match e with progress _ _ => True | _ => False end.

Definition set_random {T : Type} (w : World T) (g : np.RandomState) : World T :=
  {| np_random := g; sampler := sampler w; yielded := yielded w |}.

(** The Voice Integrator in the words of the specification: every fragment
    of the list (the fragments before the last one) is kept stripped when
    it is not blank, and is then followed by the clause [" <phrase>,"]
    when the next draw of the random source is below 0.3, the phrase being
    the one the draw after it picks. *)
Fixpoint trailing_phrases (phrases : list str) (g : np.RandomState)
  (fragments : list str) : list str * np.RandomState :=
  match fragments with
  | [] => ([], g)
  | f :: rest =>
      if truthy (strip f)
      then
        if (np.samples g (np.position g) <? 0.3)%float
        then
          let (more, g') :=
            trailing_phrases phrases (np.advance (np.advance g)) rest in
          (strip f :: (lit " " ++ np.chosen phrases (np.advance g) ++ lit ",")
             :: more, g')
        else
          let (more, g') := trailing_phrases phrases (np.advance g) rest in
          (strip f :: more, g')
      else trailing_phrases phrases g rest
  end.

(** The last fragment of the split: kept stripped when it is not blank,
    with nothing after it. *)
Definition last_fragment (fragments : list str) : list str :=
  if truthy (strip (last fragments [])) then [strip (last fragments [])]
  else [].

(** The fragments kept when no insertion fires. *)
Definition stripped_fragments (text : str) : list str :=
  map strip (filter (fun s => truthy (strip s)) (split 46 text)).

(** The draws of a run in which no insertion fires: one for each fragment
    before the last one that is not blank. *)
Definition draws_without_insertion (text : str) : nat :=
  List.length
    (filter (fun s => truthy (strip s)) (removelast (split 46 text))).

(** ** Concrete models, worlds and requests

    Stand-ins for the pretrained models, used to run the pipeline on
    concrete inputs. *)

Definition empty_dict : Dict :=
  {| avg_sentence_length := None; sentence_length_std := None;
     sentence_lengths := None; vocab_complexity := None;
     sentence_structures := None; common_phrases := None;
     other_keys := [] |}.

(** A profile that carries one recurring phrase. *)
Definition phrase_profile : Dict :=
  {| avg_sentence_length := None; sentence_length_std := None;
     sentence_lengths := None; vocab_complexity := None;
     sentence_structures := None;
     common_phrases := Some [lit "you know"];
     other_keys := [] |}.

(** A parse that takes the whole text for one word and one sentence. *)
Definition one_word_doc (text : str) : Doc.t :=
  let token :=
    {| Token.text := text; Token.pos_ := lit "X"; Token.lemma_ := text;
       Token.is_alpha := true; Token.is_space := false |} in
  {| Doc.tokens := [token];
     Doc.sents := [ {| Span.text := text; Span.tokens := [token] |} ] |}.

(** The parse of the text [123]: one numeral, no alphabetic token. *)
Definition numeral_doc : Doc.t :=
  let token :=
    {| Token.text := lit "123"; Token.pos_ := lit "NUM";
       Token.lemma_ := lit "123";
       Token.is_alpha := false; Token.is_space := false |} in
  {| Doc.tokens := [token];
     Doc.sents := [ {| Span.text := lit "123"; Span.tokens := [token] |} ] |}.

(** The parse of the empty text: no token, no sentence. *)
Definition empty_doc : Doc.t := {| Doc.tokens := []; Doc.sents := [] |}.

(** NumPy with every sum taken from left to right, in the type [t] for
    the dot product and in float64 for the statistics: a stand-in that
    gives the library's value wherever the order of the sum does not
    matter (two terms, or sums that are exact). *)
Definition sequential_sum (t : np.floating) (l : list float) : float :=
  fold_left (fun acc x => np.cast t (acc + x)%float) l 0%float.

Definition sequential_mean (l : list Z) : float :=
  (sequential_sum np.float64 (map round_Z l)
   / round_Z (Z.of_nat (List.length l)))%float.

Definition sequential_std (l : list Z) : float :=
  let m := sequential_mean l in
  let sq := map (fun x => ((round_Z x - m) * (round_Z x - m))%float) l in
  PrimFloat.sqrt
    (sequential_sum np.float64 sq / round_Z (Z.of_nat (List.length l)))%float.

Definition sequential (t : np.floating) : np.Kernels :=
  {| np.dtype := t;
     np.mean := sequential_mean;
     np.std := sequential_std;
     np.vdot := fun u v =>
       sequential_sum t
         (map (fun p => np.cast t (fst p * snd p)%float) (combine u v)) |}.

(** The rewrite model answers [A. B.], the authenticity model answers
    nothing, every text is embedded as the float64 vector (1, 1); a
    float64 score is a Python [float], which [json.dumps] accepts. *)
Definition demo_models : Models unit :=
  {| numpy := sequential np.float64;
     nlp := fun text => inr (one_word_doc text);
     bart_generate := fun _ s => (inr (lit "A. B."), s);
     auth_generate := fun _ s => (inr [], s);
     semantic_encode := fun _ => inr [1%float; 1%float];
     json_dumps_complete := fun _ _ _ => inr tt |}.

(** As [demo_models], with the parse of numerals and of the empty text,
    and with an embedding that sends the texts not starting with a capital
    C to the vector (0, 1) and the others to (1, 0). *)
Definition numeral_models : Models unit :=
  {| numpy := sequential np.float64;
     nlp := fun text =>
              match text with
              | [] => inr empty_doc
              | _ :: _ => inr numeral_doc
              end;
     bart_generate := fun _ s => (inr (lit "A. B."), s);
     auth_generate := fun _ s => (inr [], s);
     semantic_encode :=
       fun text =>
         if startswith (lit "C") text then inr [1%float; 0%float]
         else inr [0%float; 1%float];
     json_dumps_complete := fun _ _ _ => inr tt |}.

(** As [demo_models] with the embeddings in float32, the type of the
    sentence transformer's arrays, on which [json.dumps] raises: a text
    that starts with a capital C is embedded as (1, 0), any other as
    (1, 1). *)
Definition float32_models : Models unit :=
  {| numpy := sequential np.float32;
     nlp := fun text => inr (one_word_doc text);
     bart_generate := fun _ s => (inr (lit "A. B."), s);
     auth_generate := fun _ s => (inr [], s);
     semantic_encode :=
       fun text =>
         if startswith (lit "C") text then inr [1%float; 0%float]
         else inr [1%float; 1%float];
     json_dumps_complete := fun _ _ _ =>
       inl (Exception
              (lit "Object of type float32 is not JSON serializable")) |}.

(** No model is loaded: every call raises. *)
Definition unloaded_models : Models unit :=
  let e := Exception (lit "'nlp'") in
  {| numpy := sequential np.float64;
     nlp := fun _ => inl e;
     bart_generate := fun _ s => (inl e, s);
     auth_generate := fun _ s => (inl e, s);
     semantic_encode := fun _ => inl e;
     json_dumps_complete := fun _ _ _ => inr tt |}.

(** A random source whose every draw is 0.5 (no insertion fires), and one
    whose every draw is 0.1 (every insertion fires). *)
Definition quiet_random : np.RandomState :=
  {| np.samples := fun _ => 0.5%float; np.picks := fun _ => 0;
     np.position := 0 |}.

Definition eager_random : np.RandomState :=
  {| np.samples := fun _ => 0.1%float; np.picks := fun _ => 0;
     np.position := 0 |}.

(** A random source whose first two draws are 0.5 and every later one
    0.1. *)
Definition late_random : np.RandomState :=
  {| np.samples := fun k => if Nat.ltb k 2 then 0.5%float else 0.1%float;
     np.picks := fun _ => 0;
     np.position := 0 |}.

Definition quiet_world : World unit := fresh_world quiet_random tt.

Definition late_world : World unit := fresh_world late_random tt.

Definition eager_world : World unit := fresh_world eager_random tt.

Definition request_with_profile : HumanizationRequest :=
  {| text := lit "We utilize it."; user_id := lit "u1";
     user_patterns := Some phrase_profile;
     target_style := Some (lit "natural"); preserve_meaning := true |}.

Definition request_without_profile : HumanizationRequest :=
  {| text := lit "We utilize it."; user_id := lit "u1";
     user_patterns := None;
     target_style := Some (lit "natural"); preserve_meaning := true |}.

Definition long_sentence : str :=
  lit "This is a very long sentence indeed".

(** ** The endpoint [/analyze-patterns] *)

(** What an endpoint answers: a body, or an [HTTPException] with its status
    code and its detail (the exception that was caught, for [str(e)]). *)
Inductive response (A : Type) : Type :=
| OK (body : A)
| HTTPException (status_code : Z) (detail : exn).

Arguments OK {A} body.
Arguments HTTPException {A} status_code detail.

Definition analyze_patterns {T : Type} (models : Models T)
  (request : HumanizationRequest) (w : World T) : response Dict * World T :=
  match analyze_user_patterns models (text request) w with
  | (inr patterns, w') => (OK patterns, w')
  | (inl e, w') => (HTTPException 500 e, w')
  end.

(** ** Startup: [initialize_models] and [/health] *)

(** What a loader raises: an [OSError] (the model is not installed), or
    another exception. *)
Inductive load_error : Type :=
| OSError (msg : str)
| OtherError (msg : str).

(** The loaders of the libraries, by model name; [H] is the type of a
    loaded model. *)
Record Hub (H : Type) : Type := {
  AutoTokenizer_from_pretrained : str -> load_error + H;
  AutoModelForSeq2SeqLM_from_pretrained : str -> load_error + H;
  SentenceTransformer : str -> load_error + H;
  spacy_load : str -> load_error + H
}.

(** The global dictionary [models]: keys in insertion order. *)
Definition registry (H : Type) : Type := list (str * H).

(** [models[key] = value] *)
Fixpoint setitem {H : Type} (key : str) (value : H) (models : registry H)
  : registry H :=
  match models with
  | [] => [(key, value)]
  | (k, v) :: rest =>
      if Py.eqb k key then (k, value) :: rest
      else (k, v) :: setitem key value rest
  end.

(** [models[key] = <loader call>]: nothing is assigned when the call
    raises. *)
Definition assign {H : Type} (key : str) (loaded : load_error + H)
  (models : registry H) : option load_error * registry H :=
  match loaded with
  | inl e => (Some e, models)
  | inr h => (None, setitem key h models)
  end.

(** Sequencing of two startup steps: the second runs when the first did
    not raise. *)
Definition and_then {H : Type}
  (first second : registry H -> option load_error * registry H)
  (models : registry H) : option load_error * registry H :=
  match first models with
  | (Some e, models') => (Some e, models')
  | (None, models') => second models'
  end.

(** The inner [try] of the source: [en_core_web_sm] is loaded when loading
    [en_core_web_lg] raises [OSError]. *)
Definition load_nlp {H : Type} (hub : Hub H) (models : registry H)
  : option load_error * registry H :=
  match spacy_load hub (lit "en_core_web_lg") with
  | inr h => (None, setitem (lit "nlp") h models)
  | inl (OSError _) =>
      assign (lit "nlp") (spacy_load hub (lit "en_core_web_sm")) models
  | inl (OtherError msg) => (Some (OtherError msg), models)
  end.

(** [initialize_models]: the exception of a failed load is raised again by
    the handler; the entries assigned before it stay in [models]. *)
Definition initialize_models {H : Type} (hub : Hub H)
  : registry H -> option load_error * registry H :=
  and_then
    (assign (lit "style_tokenizer")
       (AutoTokenizer_from_pretrained hub (lit "google/flan-t5-large")))
  (and_then
    (assign (lit "style_model")
       (AutoModelForSeq2SeqLM_from_pretrained hub (lit "google/flan-t5-large")))
  (and_then
    (assign (lit "bart_tokenizer")
       (AutoTokenizer_from_pretrained hub (lit "facebook/bart-large")))
  (and_then
    (assign (lit "bart_model")
       (AutoModelForSeq2SeqLM_from_pretrained hub (lit "facebook/bart-large")))
  (and_then
    (assign (lit "semantic_model")
       (SentenceTransformer hub (lit "sentence-transformers/all-MiniLM-L6-v2")))
  (and_then (load_nlp hub)
  (and_then
    (assign (lit "auth_tokenizer")
       (AutoTokenizer_from_pretrained hub (lit "t5-small")))
    (assign (lit "auth_model")
       (AutoModelForSeq2SeqLM_from_pretrained hub (lit "t5-small"))))))))).

(** [health_check]: the status and [len(models)]. *)
Definition health_check {H : Type} (models : registry H) : str * Z :=
  (lit "healthy", len models).

(** ** Further notions used in the statements *)

(** [d.get(key, 0)] on a dictionary of counts. *)
Fixpoint count_of (key : str) (counts : list (str * Z)) : Z :=
  match counts with
  | [] => 0%Z
  | (k, n) :: rest => if Py.eqb k key then n else count_of key rest
  end.

(** The number of tokens that carry a part-of-speech tag. *)
Definition tagged (tag : str) (tokens : list Token.t) : Z :=
  len (filter (fun token => Py.eqb (Token.pos_ token) tag) tokens).

(** The sum of the counts of a dictionary. *)
Definition total (counts : list (str * Z)) : Z :=
  fold_right (fun p acc => (snd p + acc)%Z) 0%Z counts.

(** The structure string of one sentence. *)
Definition structure_of (sent : Span.t) : str :=
  join (lit " ")
    (map Token.pos_
       (filter (fun token => negb (Token.is_space token)) (Span.tokens sent))).

(** The number of words of a sentence, as the source counts them. *)
Definition word_count (sent : Span.t) : Z :=
  len (split_whitespace (Span.text sent)).

(** [l] can be obtained from [l'] by deleting elements. *)
Inductive subsequence {A : Type} : list A -> list A -> Prop :=
| subsequence_nil : subsequence [] []
| subsequence_keep x l l' : subsequence l l' -> subsequence (x :: l) (x :: l')
| subsequence_skip x l l' : subsequence l l' -> subsequence l (x :: l').

(** A piece the Voice Integrator keeps: stripped, not empty, without a
    period. *)
Definition kept_piece (x : str) : Prop :=
  strip x = x /\ truthy x = true /\ Forall (fun c => N.eqb 46 c = false) x.

(** The request without its profile. *)
Definition without_profile (request : HumanizationRequest)
  : HumanizationRequest :=
  {| text := text request; user_id := user_id request;
     user_patterns := None;
     target_style := target_style request;
     preserve_meaning := preserve_meaning request |}.

(** The profile of the request counts: it is supplied and not empty. *)
Definition profile_supplied (request : HumanizationRequest) : bool :=
  match user_patterns request with
  | None => false
  | Some d => dict_truthy d
  end.

(** A computation that neither reads nor changes the random source. *)
Definition rng_blind {T A : Type} (m : M T A) : Prop :=
  forall (w : World T) (g : np.RandomState),
    m (set_random w g) = (fst (m w), set_random (snd (m w)) g).

(** The key [key] is bound to [value]. *)
Fixpoint getitem {H : Type} (key : str) (models : registry H) : option H :=
  match models with
  | [] => None
  | (k, v) :: rest => if Py.eqb k key then Some v else getitem key rest
  end.

(** The keys that [initialize_models] assigns, in the order of the source. *)
Definition model_keys : list str :=
  [ lit "style_tokenizer"; lit "style_model"; lit "bart_tokenizer";
    lit "bart_model"; lit "semantic_model"; lit "nlp";
    lit "auth_tokenizer"; lit "auth_model" ].

(** ** Further concrete models *)

(** As [demo_models], with a rewrite model that answers nothing. *)
Definition mute_models : Models unit :=
  {| numpy := sequential np.float64;
     nlp := fun text => inr (one_word_doc text);
     bart_generate := fun _ s => (inr [], s);
     auth_generate := fun _ s => (inr [], s);
     semantic_encode := fun _ => inr [1%float; 1%float];
     json_dumps_complete := fun _ _ _ => inr tt |}.

(** As [demo_models], with an authenticity model that echoes the prompt in
    front of its answer. *)
Definition echo_models : Models unit :=
  {| numpy := sequential np.float64;
     nlp := fun text => inr (one_word_doc text);
     bart_generate := fun _ s => (inr (lit "A. B."), s);
     auth_generate := fun prompt s => (inr (prompt ++ lit "  Well, ok. "), s);
     semantic_encode := fun _ => inr [1%float; 1%float];
     json_dumps_complete := fun _ _ _ => inr tt |}.

(** As [demo_models], with an embedding that sends every text to the zero
    vector of dimension 3. *)
Definition silent_models : Models unit :=
  {| numpy := sequential np.float64;
     nlp := fun text => inr (one_word_doc text);
     bart_generate := fun _ s => (inr (lit "A. B."), s);
     auth_generate := fun _ s => (inr [], s);
     semantic_encode := fun _ => inr (repeat 0%float 3);
     json_dumps_complete := fun _ _ _ => inr tt |}.

(** A hub on which every model is installed; a loaded model is its name. *)
Definition full_hub : Hub str :=
  {| AutoTokenizer_from_pretrained := fun name => inr name;
     AutoModelForSeq2SeqLM_from_pretrained := fun name => inr name;
     SentenceTransformer := fun name => inr name;
     spacy_load := fun name => inr name |}.

(** A hub without the large spaCy model. *)
Definition small_hub : Hub str :=
  {| AutoTokenizer_from_pretrained := fun name => inr name;
     AutoModelForSeq2SeqLM_from_pretrained := fun name => inr name;
     SentenceTransformer := fun name => inr name;
     spacy_load :=
       fun name =>
         if Py.eqb name (lit "en_core_web_lg")
         then inl (OSError (lit "[E050] Can't find model"))
         else inr name |}.

(** A hub on which loading BART runs out of memory. *)
Definition broken_hub : Hub str :=
  {| AutoTokenizer_from_pretrained := fun name => inr name;
     AutoModelForSeq2SeqLM_from_pretrained :=
       fun name =>
         if Py.eqb name (lit "facebook/bart-large")
         then inl (OtherError (lit "out of memory"))
         else inr name;
     SentenceTransformer := fun name => inr name;
     spacy_load := fun name => inr name |}.

(** A sentence of twenty-one words. *)
Definition wordy_sentence : str :=
  lit "a b c d e f g h i j k l m n o p q r s t u".

(** As [demo_models], with an embedding that tells the texts in which
    [utilize] occurs from the others. *)
Definition strict_models : Models unit :=
  {| numpy := sequential np.float64;
     nlp := fun text => inr (one_word_doc text);
     bart_generate := fun _ s => (inr (lit "A. B."), s);
     auth_generate := fun _ s => (inr [], s);
     semantic_encode :=
       fun text =>
         if contains (lit "utilize") text then inr [1%float; 0%float]
         else inr [0%float; 1%float];
     json_dumps_complete := fun _ _ _ => inr tt |}.

Definition request_numeral : HumanizationRequest :=
  {| text := lit "123"; user_id := lit "u1";
     user_patterns := None;
     target_style := Some (lit "natural"); preserve_meaning := true |}.

Definition request_empty_profile : HumanizationRequest :=
  {| text := lit "We utilize it."; user_id := lit "u1";
     user_patterns := Some empty_dict;
     target_style := Some (lit "natural"); preserve_meaning := true |}.

(** Profiles with length targets: 4 and 1.5; the integer -2^63 and 100.5;
    the integer 10^400 and 1.5. *)
Definition targets (avg std : number) : Dict :=
  {| avg_sentence_length := Some avg; sentence_length_std := Some std;
     sentence_lengths := None; vocab_complexity := None;
     sentence_structures := None; common_phrases := None;
     other_keys := [] |}.

Definition short_profile : Dict := targets (PyFloat 4) (PyFloat 1.5).

Definition negative_profile : Dict :=
  targets (PyInt (- 2 ^ 63)) (PyFloat 100.5).

Definition huge_profile : Dict := targets (PyInt (10 ^ 400)) (PyFloat 1.5).

Definition five_words : str := lit "one two three four five".

(** * Properties *)

Unset Implicit Arguments.

(** ** Strings *)

Example replace_all_matches :
  replace (lit "aa") (lit "b") (lit "aaaaa") = lit "bba".
Proof. reflexivity. Qed.

Example replace_empty_pattern :
  replace [] (lit "-") (lit "abc") = lit "-a-b-c-".
Proof. reflexivity. Qed.

Example split_trailing_period :
  split 46 (lit "A. B.") = [lit "A"; lit " B"; lit ""].
Proof. reflexivity. Qed.

Example split_whitespace_words :
  split_whitespace (lit "  two  words ") = [lit "two"; lit "words"].
Proof. reflexivity. Qed.

Example strip_both_ends : strip (lit "  a b  ") = lit "a b".
Proof. reflexivity. Qed.
Lemma startswith_length (p s : str) :
  startswith p s = true -> List.length p <= List.length s.
Proof.
  revert s; induction p as [|a p IH]; intros [|b s] H; simpl in *;
    try lia; try discriminate.
  apply andb_true_iff in H as [_ H]. apply IH in H. lia.
Qed.

Lemma startswith_refl (p : str) : startswith p p = true.
Proof.
  induction p as [|a p IH]; simpl; [reflexivity|].
  rewrite N.eqb_refl. exact IH.
Qed.

Lemma startswith_app (p s : str) : startswith p (p ++ s) = true.
Proof.
  induction p as [|a p IH]; simpl; [reflexivity|].
  rewrite N.eqb_refl. exact IH.
Qed.

Lemma contains_startswith (p s : str) :
  startswith p s = true -> contains p s = true.
Proof.
  destruct s as [|c s]; simpl; intros H; [exact H|].
  rewrite H. reflexivity.
Qed.

Lemma contains_refl (p : str) : contains p p = true.
Proof. apply contains_startswith, startswith_refl. Qed.

(** A scan that has [skip] characters of a match left resumes behind them. *)
Lemma replace_scan_skip (old new : str) (skip : nat) (s : str) :
  replace_scan old new skip s = replace_scan old new 0 (skipn skip s).
Proof.
  revert s; induction skip as [|k IH]; intros s; [reflexivity|].
  destruct s as [|c s]; [reflexivity|]. simpl. apply IH.
Qed.

Lemma replace_scan_absent (old new s : str) :
  contains old s = false -> replace_scan old new 0 s = s.
Proof.
  induction s as [|c s IH]; intros H; [reflexivity|].
  cbn [contains] in H. apply orb_false_iff in H as [H1 H2].
  cbn [replace_scan]. rewrite H1, (IH H2). reflexivity.
Qed.

(** [s.replace(old, new) == s] when [old] does not occur in [s]. *)
Lemma replace_absent (old new s : str) :
  contains old s = false -> replace old new s = s.
Proof.
  destruct old as [|a old]; intros H.
  - destruct s; discriminate H.
  - apply replace_scan_absent, H.
Qed.

Lemma replace_scan_length (old new : str) :
  List.length new <= List.length old -> old <> [] ->
  forall s skip,
    List.length (replace_scan old new skip s) + Nat.min skip (List.length s)
    <= List.length s.
Proof.
  intros Hlen Hold.
  assert (Hpos : 0 < List.length old) by (destruct old; [congruence | simpl; lia]).
  induction s as [|c s IH]; intros skip; [simpl; lia|].
  destruct skip as [|k].
  - cbn [replace_scan]. destruct (startswith old (c :: s)) eqn:E.
    + apply startswith_length in E. cbn [List.length] in E.
      specialize (IH (Nat.pred (List.length old))).
      rewrite length_app. cbn [List.length]. lia.
    + specialize (IH 0). cbn [List.length]. lia.
  - cbn [replace_scan]. specialize (IH k). cbn [List.length]. lia.
Qed.

Lemma replace_scan_shorter (old new : str) :
  List.length new < List.length old ->
  forall s, contains old s = true ->
    List.length (replace_scan old new 0 s) < List.length s.
Proof.
  intros Hlen.
  assert (Hold : old <> []) by (destruct old; [simpl in Hlen; lia | congruence]).
  induction s as [|c s IH]; intros H.
  - destruct old; [congruence | discriminate H].
  - cbn [contains] in H. cbn [replace_scan].
    destruct (startswith old (c :: s)) eqn:E.
    + apply startswith_length in E. cbn [List.length] in E.
      pose proof (@replace_scan_length old new (Nat.lt_le_incl _ _ Hlen) Hold s
                    (Nat.pred (List.length old))) as L.
      rewrite length_app. cbn [List.length]. lia.
    + simpl in H. apply IH in H. cbn [List.length]. lia.
Qed.

(** A replacement by a shorter word never lengthens the text, and shortens
    it when the word occurs. *)
Lemma replace_length (old new s : str) :
  List.length new < List.length old ->
  List.length (replace old new s) <= List.length s.
Proof.
  intros Hlen. destruct old as [|a old]; [simpl in Hlen; lia|].
  pose proof (@replace_scan_length (a :: old) new (Nat.lt_le_incl _ _ Hlen)
                ltac:(congruence) s 0) as L.
  unfold replace. lia.
Qed.

Lemma replace_shorter (old new s : str) :
  List.length new < List.length old -> contains old s = true ->
  List.length (replace old new s) < List.length s.
Proof.
  intros Hlen H. destruct old as [|a old]; [simpl in Hlen; lia|].
  unfold replace. apply replace_scan_shorter; assumption.
Qed.

Lemma apply_replacements_length (pairs : list (str * str)) :
  shrinking pairs ->
  forall s, List.length (apply_replacements pairs s) <= List.length s.
Proof.
  induction 1 as [|p pairs Hp _ IH]; intros s; [simpl; lia|].
  change (apply_replacements (p :: pairs) s)
    with (apply_replacements pairs (replace (fst p) (snd p) s)).
  etransitivity; [apply IH|]. apply replace_length, Hp.
Qed.

Lemma apply_replacements_fixed (pairs : list (str * str)) :
  shrinking pairs ->
  forall s, apply_replacements pairs s = s <-> free_of pairs s.
Proof.
  induction 1 as [|p pairs Hp Hps IH]; intros s.
  - split; [constructor | reflexivity].
  - change (apply_replacements (p :: pairs) s)
      with (apply_replacements pairs (replace (fst p) (snd p) s)).
    split.
    + intros E.
      destruct (contains (fst p) s) eqn:C.
      * pose proof (replace_shorter _ (snd p) s Hp C) as L1.
        pose proof (apply_replacements_length pairs Hps (replace (fst p) (snd p) s)) as L2.
        rewrite E in L2. lia.
      * rewrite (replace_absent _ _ _ C) in E.
        constructor; [exact C | apply IH, E].
    + intros F. inversion F as [|? ? C F']; subst.
      rewrite (replace_absent _ _ _ C). apply IH, F'.
Qed.

Lemma vocab_replacements_shrinking : shrinking vocab_replacements.
Proof. repeat constructor. Qed.

(** Replacing [old] in [old] itself leaves the replacement. *)
Lemma replace_self (old new : str) : old <> [] -> replace old new old = new.
Proof.
  destruct old as [|a old]; [congruence|]. intros _.
  unfold replace. cbn [replace_scan].
  rewrite startswith_refl, replace_scan_skip.
  cbn [List.length Nat.pred]. rewrite skipn_all. simpl. apply app_nil_r.
Qed.

Lemma truthy_false (s : str) : truthy s = false <-> s = [].
Proof. destruct s; simpl; split; congruence. Qed.

Lemma truthy_true (s : str) : truthy s = true <-> s <> [].
Proof. destruct s; simpl; split; congruence. Qed.

(** ** Vocabulary Adapter *)

Example vocabulary_adaptation_utilize :
  vocabulary_adaptation (lit "We utilize it, consequently.") empty_dict
  = lit "We use it, so.".
Proof. reflexivity. Qed.

(** C4, amended: the Vocabulary Adapter applied a second time changes
    nothing exactly when none of the eight AI words occurs in the text
    adapted once. *)
Theorem vocabulary_adaptation_twice (t : str) (user_patterns : Dict) :
  vocabulary_adaptation (vocabulary_adaptation t user_patterns) user_patterns
  = vocabulary_adaptation t user_patterns
  <-> free_of vocab_replacements (vocabulary_adaptation t user_patterns).
Proof.
  unfold vocabulary_adaptation.
  apply apply_replacements_fixed, vocab_replacements_shrinking.
Qed.

(** C4, counterexample: [nevertheless] followed by [ilize] becomes
    [butilize], in which the first AI word, [utilize], now occurs; a second
    pass turns it into [buse]. *)
Lemma vocabulary_adaptation_not_idempotent :
  vocabulary_adaptation (lit "neverthelessilize") empty_dict = lit "butilize"
  /\ vocabulary_adaptation (lit "butilize") empty_dict = lit "buse"
  /\ vocabulary_adaptation
       (vocabulary_adaptation (lit "neverthelessilize") empty_dict) empty_dict
     <> vocabulary_adaptation (lit "neverthelessilize") empty_dict.
Proof.
  split; [reflexivity|]. split; [reflexivity|].
  vm_compute. discriminate.
Qed.

(** ** Structural Rewriter: [_split_sentence] *)

(** C5, amended: when the rewrite model returns [result] for a sentence,
    [_split_sentence] returns the sentence alone, verbatim, if at most one
    period-separated fragment of [result] is not blank; otherwise it returns
    the non-blank fragments of [result], each stripped and closed by a
    period. *)
Theorem _split_sentence_fragments (T : Type) (self : Models T)
  (sentence result : str) (w : World T) (s' : T) :
  bart_generate self (split_prompt sentence) (sampler w) = (inr result, s') ->
  (List.length (nonblank_fragments result) <= 1 ->
   fst (_split_sentence self sentence w) = inr [sentence])
  /\ (1 < List.length (nonblank_fragments result) ->
      fst (_split_sentence self sentence w)
      = inr (map (fun s => strip s ++ lit ".") (nonblank_fragments result))).
Proof.
  intros H. unfold _split_sentence, bind, generate, ret.
  rewrite H. cbn [fst]. unfold split_result, len.
  fold (nonblank_fragments result). rewrite length_map.
  split; intros L.
  - destruct (Z.ltb_spec 1 (Z.of_nat (List.length (nonblank_fragments result))));
      [lia | reflexivity].
  - destruct (Z.ltb_spec 1 (Z.of_nat (List.length (nonblank_fragments result))));
      [reflexivity | lia].
Qed.

Lemma _split_sentence_fragments_witness :
  bart_generate demo_models (split_prompt long_sentence) (sampler quiet_world)
  = (inr (lit "A. B."), tt)
  /\ fst (_split_sentence demo_models long_sentence quiet_world)
     = inr [lit "A."; lit "B."].
Proof.
  split; [reflexivity|].
  apply (proj2 (@_split_sentence_fragments unit demo_models long_sentence
                  (lit "A. B.") quiet_world tt eq_refl)).
  vm_compute. lia.
Defined.

(** C5, counterexample: the rewrite model answers [A. B.] for a sentence of
    29 non-whitespace characters; the two fragments returned have 4, and are
    not the sentence. *)
Lemma _split_sentence_drops_content :
  fst (_split_sentence demo_models long_sentence quiet_world)
  = inr [lit "A."; lit "B."]
  /\ ~ (content_length [lit "A."; lit "B."] >= nonspace_length long_sentence
        \/ [lit "A."; lit "B."] = [long_sentence]).
Proof.
  split; [reflexivity|]. intros [H | H].
  - vm_compute in H. lia.
  - discriminate H.
Qed.

(** ** Authenticity Injector *)

Lemma authenticity_prompt_nonempty (text : str) : authenticity_prompt text <> [].
Proof. discriminate. Qed.

(** C8: when the model's decoded output, with the echoed prompt removed, is
    the empty string, [authenticity_injection] returns its input text; for a
    non-empty input it never returns the empty string. *)
Theorem authenticity_injection_fallback (T : Type) (self : Models T)
  (text result : str) (w : World T) (s' : T) :
  auth_generate self (authenticity_prompt text) (sampler w) = (inr result, s') ->
  (remove_prompt (authenticity_prompt text) result = [] ->
   fst (authenticity_injection self text w) = inr text)
  /\ (result = [] \/ result = authenticity_prompt text ->
      fst (authenticity_injection self text w) = inr text)
  /\ (text <> [] -> fst (authenticity_injection self text w) <> inr []).
Proof.
  intros H.
  assert (E : fst (authenticity_injection self text w)
              = inr (if truthy (remove_prompt (authenticity_prompt text) result)
                     then remove_prompt (authenticity_prompt text) result
                     else text)).
  { unfold authenticity_injection, bind, generate, ret. rewrite H. reflexivity. }
  rewrite E. split; [|split].
  - intros R. rewrite R. reflexivity.
  - intros [R | R]; subst result.
    + unfold remove_prompt. cbn [contains startswith authenticity_prompt].
      reflexivity.
    + unfold remove_prompt. rewrite contains_refl.
      rewrite (replace_self _ [] (authenticity_prompt_nonempty text)).
      reflexivity.
  - intros N. destruct (remove_prompt (authenticity_prompt text) result) eqn:R;
      cbn [truthy]; congruence.
Qed.

Lemma authenticity_injection_fallback_witness :
  auth_generate demo_models (authenticity_prompt (lit "We use it."))
    (sampler quiet_world) = (inr [], tt)
  /\ fst (authenticity_injection demo_models (lit "We use it.") quiet_world)
     = inr (lit "We use it.").
Proof.
  split; [reflexivity|].
  apply (proj1 (@authenticity_injection_fallback unit demo_models
                  (lit "We use it.") [] quiet_world tt eq_refl)).
  reflexivity.
Defined.

(** ** Coherence Gate *)

(** C2: when the two texts are embedded as vectors [u] and [v] of one
    length, [coherence_preservation] computes their cosine similarity as
    [dot(u, v) / (norm(u) * norm(v))], each operation in the type of the
    arrays, and returns the original text, whole, with this similarity
    when it is below 0.85, and the modified text with it otherwise. *)
Theorem coherence_preservation_gate (T : Type) (self : Models T)
  (original modified : str) (u v : list float) :
  semantic_encode self original = inr u ->
  semantic_encode self modified = inr v ->
  List.length u = List.length v ->
  let K := numpy self in
  let similarity :=
    np.divide K (np.vdot K u v)
      (np.multiply K (np.linalg_norm K u) (np.linalg_norm K v)) in
  coherence_preservation self original modified
  = inr (if (similarity <? 0.85)%float then original else modified,
         similarity).
Proof.
  intros Hu Hv Hlen K similarity.
  unfold coherence_preservation, similarity_of, np.dot.
  rewrite Hu, Hv, Hlen, Nat.eqb_refl. fold K. fold similarity.
  destruct (similarity <? 0.85)%float; reflexivity.
Qed.

Lemma coherence_preservation_gate_witness :
  semantic_encode float32_models (lit "Cats purr.") = inr [1%float; 0%float]
  /\ semantic_encode float32_models (lit "stocks fell")
     = inr [1%float; 1%float]
  /\ List.length [1%float; 0%float] = List.length [1%float; 1%float]
  /\ coherence_preservation float32_models (lit "Cats purr.")
       (lit "stocks fell")
     = inr (lit "Cats purr.", 0x1.6a09e6p-1%float).
Proof.
  split; [reflexivity|]. split; [reflexivity|]. split; [reflexivity|].
  exact (@coherence_preservation_gate unit float32_models
           (lit "Cats purr.") (lit "stocks fell")
           [1%float; 0%float] [1%float; 1%float] eq_refl eq_refl eq_refl).
Defined.



(** The similarity of a vector with itself is exactly 1.0 for (3, 4), in
    float32 and in float64. *)
Example similarity_of_3_4 :
  similarity_of (sequential np.float32) [3%float; 4%float] [3%float; 4%float]
  = inr 1%float
  /\ similarity_of (sequential np.float64) [3%float; 4%float]
       [3%float; 4%float]
     = inr 1%float.
Proof. split; reflexivity. Qed.


(** ** Voice Integrator *)

Lemma len_phrases_positive (phrases : list str) :
  phrases <> [] -> (0 <? len phrases)%Z = true.
Proof.
  destruct phrases; [congruence|]. intros _.
  apply Z.ltb_lt. unfold len. cbn [List.length]. lia.
Qed.

Lemma np_random_choice_nonempty (T : Type) (phrases : list str) (w : World T) :
  phrases <> [] ->
  np_random_choice phrases w
  = (inr (np.chosen phrases (np_random w)),
     set_random w (np.advance (np_random w))).
Proof.
  destruct phrases; [congruence|]. intros _. reflexivity.
Qed.

(** The loop of the source, on the fragments of a text: the fragments before
    the last one are treated as [trailing_phrases] says, the last one is
    only stripped; the loop does not raise and changes the random source
    only. *)
Lemma voice_loop_spec (T : Type) (phrases : list str) :
  phrases <> [] ->
  forall (sentences : list str) (i : Z) (w : World T),
    voice_loop phrases (i + len sentences) i sentences w
    = (inr (fst (trailing_phrases phrases (np_random w) (removelast sentences))
            ++ last_fragment sentences),
       set_random w
         (snd (trailing_phrases phrases (np_random w) (removelast sentences)))).
Proof.
  intros Hne. induction sentences as [|f rest IH]; intros i w.
  - destruct w; reflexivity.
  - assert (Hn : (i + len (f :: rest) = (i + 1) + len rest)%Z)
      by (unfold len; cbn [List.length]; lia).
    cbn [voice_loop]. rewrite Hn.
    destruct rest as [|f2 rest'].
    + assert (E : (i <? i + 1 + len (@nil str) - 1)%Z = false)
        by (apply Z.ltb_ge; unfold len; simpl; lia).
      rewrite E. cbn [andb].
      unfold last_fragment. cbn [removelast last trailing_phrases fst snd app].
      unfold bind, ret.
      destruct (truthy (strip f)); destruct w; reflexivity.
    + assert (E : (i <? i + 1 + len (f2 :: rest') - 1)%Z = true)
        by (apply Z.ltb_lt; unfold len; cbn [List.length]; lia).
      rewrite E, (len_phrases_positive phrases Hne). cbn [andb].
      change (removelast (f :: f2 :: rest')) with (f :: removelast (f2 :: rest')).
      unfold last_fragment.
      change (last (f :: f2 :: rest') []) with (last (f2 :: rest') []).
      fold (last_fragment (f2 :: rest')).
      cbn [trailing_phrases].
      destruct (truthy (strip f)) eqn:Ef.
      * unfold bind at 1. unfold bind at 1.
        unfold np_random_random at 1. cbn [np.random_random].
        destruct (_ <? _)%float.
        -- unfold bind at 1. rewrite (np_random_choice_nonempty T phrases _ Hne).
           unfold ret at 1. unfold bind. rewrite IH. unfold ret.
           cbn [np_random sampler yielded set_random].
           destruct (trailing_phrases phrases _ _) as [more g'].
           reflexivity.
        -- unfold ret at 1. unfold bind. rewrite IH. unfold ret.
           cbn [np_random sampler yielded set_random].
           destruct (trailing_phrases phrases _ _) as [more g'].
           reflexivity.
      * unfold bind. unfold ret at 1. rewrite IH. unfold ret. reflexivity.
Qed.

Lemma split_on_nonempty (p : N -> bool) (s : str) : split_on p s <> [].
Proof.
  induction s as [|c s IH]; simpl; [discriminate|].
  destruct (p c); [discriminate|].
  destruct (split_on p s); [congruence | discriminate].
Qed.

Lemma chosen_in (phrases : list str) (g : np.RandomState) :
  phrases <> [] -> In (np.chosen phrases g) phrases.
Proof.
  intros Hne. unfold np.chosen. apply nth_In.
  apply Nat.mod_upper_bound. destruct phrases; [congruence | discriminate].
Qed.

(** What [trailing_phrases] produces: stripped, non-blank fragments of the
    list and clauses made of a phrase of the list. *)
Lemma trailing_phrases_items (phrases : list str) :
  phrases <> [] ->
  forall (fragments : list str) (g : np.RandomState),
    Forall
      (fun x =>
         (exists f, In f fragments /\ truthy (strip f) = true /\ x = strip f)
         \/ (exists p, In p phrases /\ x = lit " " ++ p ++ lit ","))
      (fst (trailing_phrases phrases g fragments)).
Proof.
  intros Hne. induction fragments as [|f rest IH]; intros g; [constructor|].
  assert (Hrest : forall g',
    Forall
      (fun x =>
         (exists f0, In f0 (f :: rest) /\ truthy (strip f0) = true /\ x = strip f0)
         \/ (exists p, In p phrases /\ x = lit " " ++ p ++ lit ","))
      (fst (trailing_phrases phrases g' rest))).
  { intros g'. eapply Forall_impl; [|apply IH].
    intros x [(f0 & I & B & E) | R]; [left | right; exact R].
    exists f0. split; [right; exact I | split; assumption]. }
  cbn [trailing_phrases]. destruct (truthy (strip f)) eqn:Ef; [|apply Hrest].
  destruct (_ <? _)%float.
  - specialize (Hrest (np.advance (np.advance g))).
    destruct (trailing_phrases phrases _ rest) as [more g'].
    cbn [fst] in *. constructor; [|constructor; [|exact Hrest]].
    + left. exists f. split; [left; reflexivity | split; [exact Ef | reflexivity]].
    + right. exists (np.chosen phrases (np.advance g)).
      split; [apply chosen_in, Hne | reflexivity].
  - specialize (Hrest (np.advance g)).
    destruct (trailing_phrases phrases _ rest) as [more g'].
    cbn [fst] in *. constructor; [|exact Hrest].
    left. exists f. split; [left; reflexivity | split; [exact Ef | reflexivity]].
Qed.

(** When no draw is below 0.3, no clause is inserted. *)
Lemma trailing_phrases_quiet (phrases : list str) (fragments : list str) :
  forall g : np.RandomState,
    (forall k, (np.samples g k <? 0.3)%float = false) ->
    fst (trailing_phrases phrases g fragments)
    = map strip (filter (fun s => truthy (strip s)) fragments).
Proof.
  induction fragments as [|f rest IH]; intros g Q; [reflexivity|].
  cbn [trailing_phrases filter].
  destruct (truthy (strip f)); [|apply IH, Q].
  rewrite Q. specialize (IH (np.advance g) Q).
  destruct (trailing_phrases phrases (np.advance g) rest) as [more g'].
  cbn [fst map] in *. rewrite IH. reflexivity.
Qed.

(** The same when the draws made are not below 0.3: a run without
    insertion makes one draw for each fragment that is not blank, and what
    the source would give after them is not looked at. *)
Lemma trailing_phrases_no_fire (phrases : list str) (fragments : list str) :
  forall g : np.RandomState,
    (forall j,
        (j < List.length (filter (fun s => truthy (strip s)) fragments))%nat ->
        (np.samples g (np.position g + j) <? 0.3)%float = false) ->
    fst (trailing_phrases phrases g fragments)
    = map strip (filter (fun s => truthy (strip s)) fragments).
Proof.
  induction fragments as [|f rest IH]; intros g Q; [reflexivity|].
  cbn [trailing_phrases filter] in *.
  destruct (truthy (strip f)); [|apply IH, Q].
  cbn [List.length] in Q.
  assert (Q0 := Q 0%nat ltac:(lia)). rewrite Nat.add_0_r in Q0. rewrite Q0.
  assert (Q' : forall j,
             (j < List.length (filter (fun s => truthy (strip s)) rest))%nat ->
             (np.samples (np.advance g) (np.position (np.advance g) + j)
              <? 0.3)%float = false).
  { intros j Hj. assert (Q1 := Q (S j) ltac:(lia)).
    rewrite Nat.add_succ_r in Q1. exact Q1. }
  specialize (IH (np.advance g) Q').
  destruct (trailing_phrases phrases (np.advance g) rest) as [more g'].
  cbn [fst map] in *. rewrite IH. reflexivity.
Qed.

Lemma stripped_last_fragment (fragments : list str) :
  fragments <> [] ->
  map strip (filter (fun s => truthy (strip s)) (removelast fragments))
  ++ last_fragment fragments
  = map strip (filter (fun s => truthy (strip s)) fragments).
Proof.
  intros Hne.
  rewrite (app_removelast_last [] Hne) at 3.
  rewrite filter_app, map_app. f_equal.
  unfold last_fragment. cbn [filter].
  unfold str in *. generalize (last fragments []). intros l.
  destruct (truthy (strip l)); reflexivity.
Qed.

Lemma personal_voice_integration_spec (T : Type) (text : str) (d : Dict)
  (phrases : list str) (w : World T) :
  common_phrases d = Some phrases -> phrases <> [] ->
  personal_voice_integration text d w
  = (inr (join (lit ". ")
            (fst (trailing_phrases phrases (np_random w)
                    (removelast (split 46 text)))
             ++ last_fragment (split 46 text))),
     set_random w
       (snd (trailing_phrases phrases (np_random w)
               (removelast (split 46 text))))).
Proof.
  intros Hd Hne. unfold personal_voice_integration. rewrite Hd. cbn [get].
  destruct phrases as [|p phrases]; [congruence|].
  unfold bind.
  rewrite <- (Z.add_0_l (len (split 46 text))).
  rewrite (voice_loop_spec T (p :: phrases) Hne). reflexivity.
Qed.

(** C6: with a non-empty list of phrases, [personal_voice_integration]
    splits the text at the periods; a clause with a phrase of the list is
    inserted only behind a fragment that is not the last one of the split,
    when the draw of the random source made for that fragment is below 0.3;
    the last fragment is only stripped; the pieces are joined by [". "]. *)
Theorem personal_voice_integration_never_after_last (T : Type) (text : str)
  (d : Dict) (phrases : list str) (w : World T) :
  common_phrases d = Some phrases -> phrases <> [] ->
  let fragments := split 46 text in
  let items := fst (trailing_phrases phrases (np_random w) (removelast fragments)) in
  fst (personal_voice_integration text d w)
  = inr (join (lit ". ") (items ++ last_fragment fragments))
  /\ Forall
       (fun x =>
          (exists f, In f (removelast fragments)
                     /\ truthy (strip f) = true /\ x = strip f)
          \/ (exists p, In p phrases /\ x = lit " " ++ p ++ lit ","))
       items.
Proof.
  intros Hd Hne fragments items. split.
  - rewrite (personal_voice_integration_spec T text d phrases w Hd Hne).
    reflexivity.
  - apply trailing_phrases_items, Hne.
Qed.

Lemma personal_voice_integration_never_after_last_witness :
  common_phrases phrase_profile = Some [lit "you know"]
  /\ [lit "you know"] <> []
  /\ fst (personal_voice_integration (lit "One. Two. Three") phrase_profile
            eager_world)
     = inr (lit "One.  you know,. Two.  you know,. Three").
Proof.
  split; [reflexivity|]. split; [discriminate|].
  apply (proj1 (personal_voice_integration_never_after_last unit
                  (lit "One. Two. Three") phrase_profile [lit "you know"]
                  eager_world eq_refl ltac:(discriminate))).
Defined.

(** C10: with a non-empty list of phrases, on a run where no insertion
    fires (none of the draws made, one for each fragment before the last
    that is not blank, is below 0.3), [personal_voice_integration] returns
    the fragments of the text between periods that are not blank, each
    stripped, joined by [". "]; this is not the identity: for [A.  B.] the
    result is [A. B]. *)
Theorem personal_voice_integration_quiet (T : Type) (text : str) (d : Dict)
  (phrases : list str) (w : World T) :
  common_phrases d = Some phrases -> phrases <> [] ->
  (forall j, (j < draws_without_insertion text)%nat ->
     (np.samples (np_random w) (np.position (np_random w) + j) <? 0.3)%float
     = false) ->
  fst (personal_voice_integration text d w)
  = inr (join (lit ". ") (stripped_fragments text))
  /\ join (lit ". ") (stripped_fragments (lit "A.  B.")) = lit "A. B".
Proof.
  intros Hd Hne Q. split; [|reflexivity].
  rewrite (personal_voice_integration_spec T text d phrases w Hd Hne).
  cbn [fst]. rewrite (trailing_phrases_no_fire phrases _ _ Q).
  rewrite (stripped_last_fragment (split 46 text)
             (split_on_nonempty (N.eqb 46) text)).
  reflexivity.
Qed.

Lemma personal_voice_integration_quiet_witness :
  common_phrases phrase_profile = Some [lit "you know"]
  /\ [lit "you know"] <> []
  /\ draws_without_insertion (lit "A.  B.") = 2%nat
  /\ (forall j, (j < draws_without_insertion (lit "A.  B."))%nat ->
        (np.samples (np_random late_world)
           (np.position (np_random late_world) + j) <? 0.3)%float = false)
  /\ (np.samples (np_random late_world) 2 <? 0.3)%float = true
  /\ fst (personal_voice_integration (lit "A.  B.") phrase_profile late_world)
     = inr (lit "A. B").
Proof.
  assert (Q : forall j, (j < draws_without_insertion (lit "A.  B."))%nat ->
                (np.samples (np_random late_world)
                   (np.position (np_random late_world) + j) <? 0.3)%float
                = false).
  { intros j Hj. change (draws_without_insertion (lit "A.  B.")) with 2%nat in Hj.
    destruct j as [|[|j]]; [reflexivity | reflexivity | lia]. }
  split; [reflexivity|]. split; [discriminate|]. split; [reflexivity|].
  split; [exact Q|]. split; [reflexivity|].
  apply (proj1 (personal_voice_integration_quiet unit (lit "A.  B.")
                  phrase_profile [lit "you know"] late_world
                  eq_refl ltac:(discriminate) Q)).
Defined.

(** A text that ends with a period has the empty string for last fragment:
    its last sentence is not the last fragment, and a clause may follow
    it. *)
Example voice_text_ending_with_period :
  fst (personal_voice_integration (lit "A. B.") phrase_profile eager_world)
  = inr (lit "A.  you know,. B.  you know,").
Proof. reflexivity. Qed.

(** Without phrases the text is returned as it is. *)
Lemma personal_voice_integration_no_phrases (T : Type) (text : str) (d : Dict)
  (w : World T) :
  get (common_phrases d) [] = [] ->
  personal_voice_integration text d w = (inr text, w).
Proof.
  intros H. unfold personal_voice_integration. rewrite H. reflexivity.
Qed.

(** ** Style Analyzer *)

(** On a document without tokens and sentences the analyzer returns the
    defaults. *)
Lemma analyze_user_patterns_defaults (T : Type) (self : Models T) (text : str)
  (w : World T) :
  nlp self text = inr empty_doc ->
  analyze_user_patterns self text w
  = (inr {| avg_sentence_length := Some (PyInt 15);
            sentence_length_std := Some (PyInt 5);
            sentence_lengths := Some [];
            vocab_complexity :=
              Some {| avg_word_length := PyInt 5;
                      pos_distribution := [];
                      unique_word_ratio := PyFloat 0.5 |};
            sentence_structures := Some [];
            common_phrases := None;
            other_keys := [] |}, w).
Proof.
  intros H. unfold analyze_user_patterns, bind, lift. rewrite H. reflexivity.
Qed.

Example analyze_user_patterns_empty_text :
  fst (analyze_user_patterns numeral_models [] quiet_world)
  = inr {| avg_sentence_length := Some (PyInt 15);
           sentence_length_std := Some (PyInt 5);
           sentence_lengths := Some [];
           vocab_complexity :=
             Some {| avg_word_length := PyInt 5;
                     pos_distribution := [];
                     unique_word_ratio := PyFloat 0.5 |};
           sentence_structures := Some [];
           common_phrases := None;
           other_keys := [] |}.
Proof. reflexivity. Qed.

Example analyze_user_patterns_one_word :
  fst (analyze_user_patterns demo_models (lit "Hello") quiet_world)
  = inr {| avg_sentence_length := Some (PyFloat 1);
           sentence_length_std := Some (PyFloat 0);
           sentence_lengths := Some [1%Z];
           vocab_complexity :=
             Some {| avg_word_length := PyFloat 5;
                     pos_distribution := [(lit "X", 1%Z)];
                     unique_word_ratio := PyFloat 1 |};
           sentence_structures := Some [lit "X"];
           common_phrases := None;
           other_keys := [] |}.
Proof. reflexivity. Qed.

(** A document that has tokens, none of them alphabetic, makes the ratio of
    distinct lemmas divide by zero: the guard of the default looks at the
    document, not at its alphabetic tokens. *)
Lemma _analyze_vocabulary_complexity_no_alpha (T : Type) (self : Models T)
  (doc : Doc.t) :
  Doc.tokens doc <> [] ->
  filter Token.is_alpha (Doc.tokens doc) = [] ->
  _analyze_vocabulary_complexity self doc = inl ZeroDivisionError.
Proof.
  intros Htok Halpha. unfold _analyze_vocabulary_complexity, Doc.truthy.
  rewrite Halpha. destruct (Doc.tokens doc); [congruence | reflexivity].
Qed.

(** C3, at the failing input: the text [123] is parsed into one numeral;
    the analyzer raises [ZeroDivisionError] instead of returning the default
    ratio 0.5. *)
Theorem analyze_user_patterns_raises_on_numeral :
  nlp numeral_models (lit "123") = inr numeral_doc
  /\ filter Token.is_alpha (Doc.tokens numeral_doc) = []
  /\ analyze_user_patterns numeral_models (lit "123") quiet_world
     = (inl ZeroDivisionError, quiet_world).
Proof. repeat split. Qed.

(** ** The generator [generate_humanized_text] *)

(** No stage yields: each leaves the events yielded so far as they are. *)

Lemma analyze_user_patterns_world (T : Type) (self : Models T) (text : str)
  (w : World T) :
  snd (analyze_user_patterns self text w) = w.
Proof.
  unfold analyze_user_patterns, bind, lift, ret.
  destruct (nlp self text) as [e | doc]; [reflexivity|].
  destruct (_analyze_vocabulary_complexity self doc); reflexivity.
Qed.

Lemma _split_sentence_yielded (T : Type) (self : Models T) (sentence : str)
  (w : World T) :
  yielded (snd (_split_sentence self sentence w)) = yielded w.
Proof.
  unfold _split_sentence, bind, generate, ret.
  destruct (bart_generate self _ _) as [[e | result] s]; reflexivity.
Qed.

(** One turn of the loop of [structural_humanization]: the sum of the two
    targets is computed first and may raise; the difference is computed
    only for a sentence that is not split. *)
Lemma restructure_cons (T : Type) (self : Models T) (a s : number)
  (sent : Span.t) (rest : list Span.t) (w : World T) :
  restructure self a s (sent :: rest) w
  = match add a s with
    | inl e => (inl e, w)
    | inr longest =>
        if gt (PyInt (word_count sent)) longest
        then (pieces <- _split_sentence self (Span.text sent) ;;
              more <- restructure self a s rest ;;
              ret (pieces ++ more)) w
        else
          match sub a s with
          | inl e => (inl e, w)
          | inr _ =>
              (more <- restructure self a s rest ;;
               ret (Span.text sent :: more)) w
          end
    end.
Proof.
  cbn [restructure]. unfold word_count, bind at 1, lift at 1.
  destruct (add a s) as [e | longest]; [reflexivity|].
  destruct (gt _ longest); [reflexivity|].
  unfold bind at 1, bind at 1, lift at 1.
  destruct (sub a s) as [e | shortest]; [reflexivity|].
  destruct (lt _ shortest); reflexivity.
Qed.

(** The difference of the two targets is defined when their sum is. *)
Lemma sub_defined (a s longest : number) :
  add a s = inr longest -> exists shortest, sub a s = inr shortest.
Proof.
  unfold add, sub, to_float, and_also.
  destruct a as [a | a], s as [s | s]; intros H;
    try (eexists; reflexivity);
    match goal with
    | |- context [float_of_Z ?z] =>
        destruct (float_of_Z z); [discriminate | eexists; reflexivity]
    end.
Qed.

Lemma restructure_yielded (T : Type) (self : Models T) (a s : number)
  (sentences : list Span.t) :
  forall w : World T,
    yielded (snd (restructure self a s sentences w)) = yielded w.
Proof.
  induction sentences as [|sent rest IH]; intros w; [reflexivity|].
  rewrite restructure_cons.
  destruct (add a s) as [e | longest]; [reflexivity|].
  destruct (gt _ longest).
  - unfold bind at 1.
    pose proof (_split_sentence_yielded T self (Span.text sent) w) as H.
    destruct (_split_sentence self (Span.text sent) w) as [[e | pieces] w1];
      cbn [snd] in *; [exact H|].
    unfold bind. specialize (IH w1).
    destruct (restructure self a s rest w1) as [[e | more] w2];
      cbn [snd] in *; unfold ret; cbn [snd]; congruence.
  - destruct (sub a s) as [e | shortest]; [reflexivity|].
    unfold bind. specialize (IH w).
    destruct (restructure self a s rest w) as [[e | more] w2];
      cbn [snd] in *; unfold ret; cbn [snd]; congruence.
Qed.

Lemma structural_humanization_yielded (T : Type) (self : Models T)
  (text : str) (d : Dict) (w : World T) :
  yielded (snd (structural_humanization self text d w)) = yielded w.
Proof.
  unfold structural_humanization, bind, lift.
  destruct (nlp self text) as [e | doc]; [reflexivity|].
  pose proof (restructure_yielded T self
                (get (avg_sentence_length d) (PyInt 15))
                (get (sentence_length_std d) (PyInt 5)) (Doc.sents doc) w) as H.
  destruct (restructure self _ _ (Doc.sents doc) w) as [[e | l] w1];
    cbn [snd] in *; exact H.
Qed.

Lemma authenticity_injection_yielded (T : Type) (self : Models T) (text : str)
  (w : World T) :
  yielded (snd (authenticity_injection self text w)) = yielded w.
Proof.
  unfold authenticity_injection, bind, generate, ret.
  destruct (auth_generate self _ _) as [[e | result] s]; reflexivity.
Qed.

Lemma personal_voice_integration_yielded (T : Type) (text : str) (d : Dict)
  (w : World T) :
  yielded (snd (personal_voice_integration text d w)) = yielded w.
Proof.
  destruct (common_phrases d) as [[|p phrases]|] eqn:E.
  - unfold personal_voice_integration. rewrite E. reflexivity.
  - rewrite (personal_voice_integration_spec T text d (p :: phrases) w E
               ltac:(discriminate)).
    reflexivity.
  - unfold personal_voice_integration. rewrite E. reflexivity.
Qed.

(** The first stage: the supplied profile when it is a non-empty
    dictionary, the analysis of the text otherwise. *)
Lemma patterns_stage (T : Type) (models : Models T)
  (request : HumanizationRequest) (w : World T) :
  let m :=
    match user_patterns request with
    | None => analyze_user_patterns models (text request)
    | Some d =>
        if negb (dict_truthy d)
        then analyze_user_patterns models (text request)
        else ret d
    end in
  snd (m w) = w
  /\ forall a, fst (m w) = inr a ->
       forall d, user_patterns request = Some d -> dict_truthy d = true ->
         a = d.
Proof.
  cbv zeta. destruct (user_patterns request) as [d|].
  - destruct (dict_truthy d) eqn:E; cbn [negb].
    + split; [reflexivity|]. intros a Ha d' Hd _.
      unfold ret in Ha. cbn [fst] in Ha. congruence.
    + split; [apply analyze_user_patterns_world|]. intros a _ d' Hd Ht.
      congruence.
  - split; [apply analyze_user_patterns_world|]. intros a _ d' Hd. discriminate.
Qed.

Ltac stage_frame :=
  first [ apply structural_humanization_yielded
        | apply authenticity_injection_yielded
        | apply personal_voice_integration_yielded ].

(** One stage of the body: the case where it raises ends the run after
    [k] progress events. *)
Ltac run_stage k :=
  unfold bind at 1;
  match goal with
  | |- (let (_, _) := (let (_, _) := ?c in _) in _) =>
      let Y := fresh "Y" in
      assert (Y : yielded (snd c) = _) by stage_frame;
      destruct c as [[?e | ?a] ?w]; cbn [snd yielded] in Y;
      repeat match goal with
             | H : yielded ?v = _, Y' : yielded _ = ?rhs |- _ =>
                 lazymatch rhs with
                 | context [yielded v] => rewrite H in Y'; clear H
                 end
             end;
      cbv beta iota;
      [ exists k; split; [lia|]; rewrite Y, <- ?app_assoc; reflexivity | ]
  end.

Ltac run_yield :=
  unfold bind at 1; unfold yield at 1; cbv beta iota.

(** The events of the body: all six progress events, the [complete] event
    and the sentinel when it returns; the first [k] progress events when it
    raises. *)
Lemma humanize_steps_stream (T : Type) (models : Models T)
  (request : HumanizationRequest) (w : World T) :
  match humanize_steps models request w with
  | (inr _, w') =>
      exists t s p,
        yielded w' = yielded w ++ progress_events ++ [complete t s p; DONE]
        /\ (forall d, user_patterns request = Some d ->
                      dict_truthy d = true -> p = d)
        /\ exists current_text,
             coherence_preservation models (text request) current_text
             = inr (t, s)
  | (inl e, w') =>
      exists k, 1 <= k <= 6
                /\ yielded w' = yielded w ++ firstn k progress_events
  end.
Proof.
  unfold humanize_steps.
  run_yield. unfold bind at 1.
  match goal with
  | |- (let (_, _) := (let (_, _) := ?m ?w1 in _) in _) =>
      destruct (patterns_stage T models request w1) as [W P];
      cbv zeta in W, P;
      destruct (m w1) as [[e | a] w2]; cbn [fst snd] in W, P; subst w2
  end.
  { exists 1. split; [lia | reflexivity]. }
  specialize (P a eq_refl).
  run_yield. run_stage 2.
  run_yield. run_yield. run_stage 4.
  run_yield. run_stage 5.
  run_yield. unfold bind at 1. unfold lift at 1.
  destruct (coherence_preservation models (text request) a2)
    as [e | [t s]] eqn:C; cbv beta iota.
  { exists 6. split; [lia|]. cbn [yielded]. rewrite Y, <- !app_assoc.
    reflexivity. }
  unfold bind at 1. unfold lift at 1.
  destruct (json_dumps_complete models t s a) as [e | u]; cbv beta iota.
  { exists 6. split; [lia|]. cbn [yielded]. rewrite Y, <- !app_assoc.
    reflexivity. }
  run_yield. unfold yield. exists t, s, a.
  split; [|split; [exact P | exists a2; exact C]].
  cbn [yielded]. rewrite Y, <- !app_assoc. reflexivity.
Qed.

Lemma firstn_progress_events (k : nat) :
  Forall is_progress (firstn k progress_events).
Proof.
  apply Forall_forall. intros x I.
  assert (I' : In x progress_events)
    by (rewrite <- (firstn_skipn k progress_events);
        apply in_or_app; left; exact I).
  clear I. repeat (destruct I' as [<- | I']; [exact Logic.I|]). destruct I'.
Qed.


Example stream_models_unloaded :
  generate_humanized_text unloaded_models request_without_profile
    quiet_random tt
  = [progress (lit "analyzing") (lit "Analyzing writing patterns...");
     error (Exception (lit "'nlp'"))].
Proof. vm_compute. reflexivity. Qed.

(** With the embeddings in float32 the score is a NumPy float32, on which
    [json.dumps] raises: the six progress events are followed by the
    [error] event of the handler, and no [complete] event is sent. *)
Example stream_float32 :
  generate_humanized_text float32_models request_with_profile quiet_random tt
  = progress_events
    ++ [error (Exception
                 (lit "Object of type float32 is not JSON serializable"))].
Proof. vm_compute. reflexivity. Qed.



(** C7: when the body of the generator raises [e], the stream is the
    progress events yielded so far, at least one and at most six, followed
    by the single event [error e]; there is no [complete] event and no
    sentinel. *)
Theorem error_event_is_terminal (T : Type) (models : Models T)
  (request : HumanizationRequest) (rng : np.RandomState) (s : T) (e : exn) :
  fst (humanize_steps models request (fresh_world rng s)) = inl e ->
  exists k,
    1 <= k <= 6
    /\ generate_humanized_text models request rng s
       = firstn k progress_events ++ [error e]
    /\ Forall is_progress (firstn k progress_events).
Proof.
  intros H. unfold generate_humanized_text.
  pose proof (humanize_steps_stream T models request (fresh_world rng s)) as S.
  destruct (humanize_steps models request (fresh_world rng s)) as [[e' | u] w'];
    [|discriminate H].
  cbn [fst] in H. injection H as ->.
  destruct S as (k & K & Y). exists k.
  split; [exact K|]. split; [|apply firstn_progress_events].
  rewrite Y. reflexivity.
Qed.

Lemma error_event_is_terminal_witness :
  fst (humanize_steps unloaded_models request_without_profile
         (fresh_world quiet_random tt)) = inl (Exception (lit "'nlp'"))
  /\ exists k,
       1 <= k <= 6
       /\ generate_humanized_text unloaded_models request_without_profile
            quiet_random tt
          = firstn k progress_events ++ [error (Exception (lit "'nlp'"))]
       /\ Forall is_progress (firstn k progress_events).
Proof.
  split; [vm_compute; reflexivity|].
  apply (error_event_is_terminal unit unloaded_models request_without_profile
           quiet_random tt (Exception (lit "'nlp'"))).
  vm_compute. reflexivity.
Defined.

(** In every run, raising or not, the first event is [analyzing]. *)
Lemma analyzing_always_first (T : Type) (models : Models T)
  (request : HumanizationRequest) (rng : np.RandomState) (s : T) :
  exists rest,
    generate_humanized_text models request rng s
    = progress (lit "analyzing") (lit "Analyzing writing patterns...") :: rest.
Proof.
  unfold generate_humanized_text.
  pose proof (humanize_steps_stream T models request (fresh_world rng s)) as S.
  destruct (humanize_steps models request (fresh_world rng s)) as [[e | u] w'].
  - destruct S as (k & K & Y). rewrite Y.
    destruct k as [|k]; [lia|]. eexists. reflexivity.
  - destruct S as (t & sim & p & Y & _). rewrite Y. eexists. reflexivity.
Qed.

Lemma coherence_preservation_result (T : Type) (self : Models T)
  (original modified t : str) (similarity : float) :
  coherence_preservation self original modified = inr (t, similarity) ->
  ((similarity <? 0.85)%float = true -> t = original)
  /\ ((similarity <? 0.85)%float = false -> t = modified).
Proof.
  unfold coherence_preservation.
  destruct (semantic_encode self original) as [e | u]; [discriminate|].
  destruct (semantic_encode self modified) as [e | v]; [discriminate|].
  destruct (similarity_of (numpy self) u v) as [e | sim]; [discriminate|].
  destruct (sim <? 0.85)%float eqn:L; intros H; injection H as <- <-;
    rewrite L; split; congruence.
Qed.

(** The revert is whole: a [complete] event whose similarity is below 0.85
    carries the text of the request, untouched by any stage. *)
Lemma complete_event_reverts_whole (T : Type) (models : Models T)
  (request : HumanizationRequest) (rng : np.RandomState) (s : T)
  (t : str) (similarity : float) (p : Dict) :
  In (complete t similarity p) (generate_humanized_text models request rng s) ->
  (similarity <? 0.85)%float = true ->
  t = text request.
Proof.
  unfold generate_humanized_text.
  pose proof (humanize_steps_stream T models request (fresh_world rng s)) as S.
  destruct (humanize_steps models request (fresh_world rng s)) as [[e | u] w'].
  - destruct S as (k & _ & Y). rewrite Y. cbn [fresh_world yielded app].
    intros I _. apply in_app_or in I as [I | [I | []]]; [|discriminate I].
    pose proof (firstn_progress_events k) as F.
    rewrite Forall_forall in F. destruct (F _ I).
  - destruct S as (t' & sim' & p' & Y & _ & cur & C). rewrite Y.
    cbn [fresh_world yielded app]. intros I L.
    apply in_app_or in I as [I | I].
    + pose proof (firstn_progress_events 6) as F.
      rewrite Forall_forall in F. destruct (F _ I).
    + destruct I as [I | [I | []]]; [|discriminate I].
      injection I as -> -> ->.
      apply (proj1 (coherence_preservation_result T models _ _ _ _ C) L).
Qed.

(** * Further properties *)

(** ** Style Analyzer *)

Lemma eqb_eq (a b : str) : Py.eqb a b = true <-> a = b.
Proof.
  unfold Py.eqb. destruct (list_eq_dec N.eq_dec a b); split; congruence.
Qed.

Lemma eqb_refl (a : str) : Py.eqb a a = true.
Proof. apply eqb_eq. reflexivity. Qed.

Lemma eqb_neq (a b : str) : Py.eqb a b = false <-> a <> b.
Proof.
  unfold Py.eqb. destruct (list_eq_dec N.eq_dec a b); split; congruence.
Qed.

Lemma float_overflow_large : (1 < float_overflow)%Z.
Proof. apply Z.ltb_lt. vm_compute. reflexivity. Qed.

(** The quotient of a count by a count that is not smaller is a float:
    neither division by zero nor overflow. *)
Lemma truediv_ratio (a b : Z) :
  (0 <= a <= b)%Z -> (0 < b)%Z -> exists r, truediv a b = inr r.
Proof.
  intros Ha Hb. unfold truediv.
  assert (E : (b =? 0)%Z = false) by (apply Z.eqb_neq; lia). rewrite E.
  assert (G : (float_overflow * Z.abs b <=? Z.abs a)%Z = false).
  { apply Z.leb_gt. pose proof float_overflow_large as L.
    rewrite (Z.abs_eq a), (Z.abs_eq b) by lia. nia. }
  rewrite G. eexists. reflexivity.
Qed.

Lemma len_nodup_le (l : list str) :
  (0 <= len (nodup (list_eq_dec N.eq_dec) l) <= len l)%Z.
Proof.
  unfold len. split; [lia|]. apply Nat2Z.inj_le.
  apply NoDup_incl_length; [apply NoDup_nodup|].
  intros x I. apply nodup_In in I. exact I.
Qed.

(** The three outcomes of the analyzer. *)
Lemma analyze_user_patterns_cases (T : Type) (self : Models T)
  (text : str) (w : World T) :
  (forall e, nlp self text = inl e ->
             analyze_user_patterns self text w = (inl e, w))
  /\ (forall doc, nlp self text = inr doc ->
        Doc.tokens doc <> [] ->
        filter Token.is_alpha (Doc.tokens doc) = [] ->
        analyze_user_patterns self text w = (inl ZeroDivisionError, w))
  /\ (forall doc, nlp self text = inr doc ->
        Doc.tokens doc = [] \/ filter Token.is_alpha (Doc.tokens doc) <> [] ->
        exists patterns,
          analyze_user_patterns self text w = (inr patterns, w)).
Proof.
  split; [|split].
  - intros e H. unfold analyze_user_patterns, bind, lift. rewrite H.
    reflexivity.
  - intros doc H Htok Halpha. unfold analyze_user_patterns, bind, lift.
    rewrite H, (_analyze_vocabulary_complexity_no_alpha T self doc Htok Halpha).
    reflexivity.
  - intros doc H Hdoc. unfold analyze_user_patterns, bind, lift. rewrite H.
    unfold _analyze_vocabulary_complexity, Doc.truthy.
    destruct (Doc.tokens doc) as [|t ts] eqn:Et.
    + cbn [filter map]. eexists. reflexivity.
    + destruct Hdoc as [Hdoc | Hdoc]; [discriminate Hdoc|].
      destruct (filter Token.is_alpha (t :: ts)) as [|a alpha]; [congruence|].
      match goal with
      | |- context [truediv ?x ?y] =>
          destruct (truediv_ratio x y) as [r ->]
      end.
      * pose proof (len_nodup_le (map Token.lemma_ (a :: alpha))) as L.
        unfold len in L |- *. rewrite length_map in L. exact L.
      * unfold len. cbn [List.length]. lia.
      * eexists. reflexivity.
Qed.

(** X1: [analyze_user_patterns] raises what the parser raises; on a parsed
    document it raises [ZeroDivisionError] when the document has tokens and
    none of them is alphabetic, and returns a profile in every other case;
    it leaves the world as it is. *)
Theorem analyze_user_patterns_outcome (T : Type) (self : Models T)
  (text : str) (w : World T) :
  (forall e, nlp self text = inl e ->
             analyze_user_patterns self text w = (inl e, w))
  /\ (forall doc, nlp self text = inr doc ->
        Doc.tokens doc <> [] ->
        filter Token.is_alpha (Doc.tokens doc) = [] ->
        analyze_user_patterns self text w = (inl ZeroDivisionError, w))
  /\ (forall doc, nlp self text = inr doc ->
        Doc.tokens doc = [] \/ filter Token.is_alpha (Doc.tokens doc) <> [] ->
        exists patterns,
          analyze_user_patterns self text w = (inr patterns, w)).
Proof. exact (analyze_user_patterns_cases T self text w). Qed.

Lemma count_of_count_pos (tag pos : str) (counts : list (str * Z)) :
  count_of tag (count_pos pos counts)
  = (count_of tag counts + if Py.eqb pos tag then 1 else 0)%Z.
Proof.
  induction counts as [|[k n] rest IH]; cbn [count_pos count_of].
  - destruct (Py.eqb pos tag); reflexivity.
  - destruct (Py.eqb k pos) eqn:Ekp; cbn [count_of].
    + apply eqb_eq in Ekp. subst k.
      destruct (Py.eqb pos tag); lia.
    + destruct (Py.eqb k tag) eqn:Ekt; [|exact IH].
      apply eqb_eq in Ekt. subst k. apply eqb_neq in Ekp.
      assert (E : Py.eqb pos tag = false) by (apply eqb_neq; congruence).
      rewrite E. lia.
Qed.

Lemma total_count_pos (pos : str) (counts : list (str * Z)) :
  total (count_pos pos counts) = (total counts + 1)%Z.
Proof.
  induction counts as [|[k n] rest IH]; cbn [count_pos total fold_right snd];
    [reflexivity|].
  destruct (Py.eqb k pos); cbn [total fold_right snd]; [lia|].
  fold (total (count_pos pos rest)). fold (total rest). lia.
Qed.

Lemma keys_count_pos (pos : str) (counts : list (str * Z)) :
  forall k, In k (map fst (count_pos pos counts))
            <-> k = pos \/ In k (map fst counts).
Proof.
  induction counts as [|[k0 n] rest IH]; intros k; cbn [count_pos map fst In].
  - intuition congruence.
  - destruct (Py.eqb k0 pos) eqn:E; cbn [map fst In].
    + apply eqb_eq in E. subst k0. intuition congruence.
    + rewrite IH. intuition congruence.
Qed.

Lemma NoDup_count_pos (pos : str) (counts : list (str * Z)) :
  NoDup (map fst counts) -> NoDup (map fst (count_pos pos counts)).
Proof.
  induction counts as [|[k n] rest IH]; intros H; cbn [count_pos map fst].
  - constructor; [intros [] | constructor].
  - cbn [map fst] in H. inversion H as [|? ? Hk Hrest]; subst.
    destruct (Py.eqb k pos) eqn:E; cbn [map fst]; [exact H|].
    constructor; [|apply IH, Hrest].
    intros I. apply keys_count_pos in I as [I | I]; [|exact (Hk I)].
    apply eqb_neq in E. congruence.
Qed.

Lemma tagged_cons (tag : str) (token : Token.t) (tokens : list Token.t) :
  tagged tag (token :: tokens)
  = ((if Py.eqb (Token.pos_ token) tag then 1 else 0) + tagged tag tokens)%Z.
Proof.
  unfold tagged, len. cbn [filter].
  destruct (Py.eqb (Token.pos_ token) tag); cbn [List.length]; lia.
Qed.

(** The counting loop, from any dictionary of counts. *)
Lemma pos_counts_loop (tokens : list Token.t) :
  forall counts : list (str * Z),
    let counts' :=
      fold_left (fun counts token => count_pos (Token.pos_ token) counts)
        tokens counts in
    (NoDup (map fst counts) -> NoDup (map fst counts'))
    /\ (forall tag, count_of tag counts'
                    = (count_of tag counts + tagged tag tokens)%Z)
    /\ total counts' = (total counts + len tokens)%Z.
Proof.
  induction tokens as [|token tokens IH]; intros counts; cbn [fold_left].
  - split; [tauto|]. split; [|unfold len; simpl; lia].
    intros tag. unfold tagged, len. simpl. lia.
  - specialize (IH (count_pos (Token.pos_ token) counts)).
    cbv zeta in IH. destruct IH as (N & C & S). split; [|split].
    + intros H. apply N, NoDup_count_pos, H.
    + intros tag. rewrite C, count_of_count_pos, tagged_cons. lia.
    + rewrite S, total_count_pos. unfold len. cbn [List.length]. lia.
Qed.

(** X2: in the vocabulary profile, [pos_distribution] has every tag once,
    binds a tag to the number of tokens of the document that carry it (a
    tag that is not bound is carried by none), and its counts add up to
    the number of tokens. *)
Theorem pos_distribution_counts (T : Type) (self : Models T) (doc : Doc.t)
  (vocab : VocabComplexity) :
  _analyze_vocabulary_complexity self doc = inr vocab ->
  NoDup (map fst (pos_distribution vocab))
  /\ (forall tag, count_of tag (pos_distribution vocab)
                  = tagged tag (Doc.tokens doc))
  /\ total (pos_distribution vocab) = len (Doc.tokens doc).
Proof.
  intros H. unfold _analyze_vocabulary_complexity in H.
  destruct (if Doc.truthy doc then _ else _) as [e | r]; [discriminate H|].
  injection H as <-. cbn [pos_distribution].
  destruct (pos_counts_loop (Doc.tokens doc) []) as (N & C & S).
  split; [apply N; constructor|]. split; [|exact S].
  intros tag. rewrite C. reflexivity.
Qed.

Lemma pos_distribution_counts_witness :
  _analyze_vocabulary_complexity demo_models (one_word_doc (lit "Hello"))
  = inr {| avg_word_length := PyFloat 5;
           pos_distribution := [(lit "X", 1%Z)];
           unique_word_ratio := PyFloat 1 |}
  /\ total [(lit "X", 1%Z)] = len (Doc.tokens (one_word_doc (lit "Hello"))).
Proof.
  split; [reflexivity|].
  apply (proj2 (proj2 (pos_distribution_counts unit demo_models
                         (one_word_doc (lit "Hello"))
                         {| avg_word_length := PyFloat 5;
                            pos_distribution := [(lit "X", 1%Z)];
                            unique_word_ratio := PyFloat 1 |} eq_refl))).
Defined.

(** X3: the profile computed by the analyzer carries the word counts of the
    first 50 sentences and the structure strings of the first 10
    sentences, and no [common_phrases]. *)
Theorem analyze_user_patterns_samples (T : Type) (self : Models T)
  (text : str) (w : World T) (doc : Doc.t) (patterns : Dict) :
  nlp self text = inr doc ->
  fst (analyze_user_patterns self text w) = inr patterns ->
  sentence_lengths patterns = Some (map word_count (firstn 50 (Doc.sents doc)))
  /\ sentence_structures patterns
     = Some (map structure_of (firstn 10 (Doc.sents doc)))
  /\ common_phrases patterns = None.
Proof.
  intros Hdoc H. unfold analyze_user_patterns, bind, lift, ret in H.
  rewrite Hdoc in H.
  destruct (_analyze_vocabulary_complexity self doc) as [e | vocab];
    [discriminate H|].
  cbn [fst] in H.
  assert (E : forall a b : Dict, @inr exn Dict a = inr b -> a = b)
    by (intros a b Hab; congruence).
  apply E in H. rewrite <- H.
  cbn [sentence_lengths sentence_structures common_phrases].
  split; [|split; [|reflexivity]].
  - rewrite firstn_map. reflexivity.
  - unfold _analyze_sentence_structures.
    rewrite <- firstn_map, firstn_firstn.
    change (Init.Nat.min 10 20) with 10. rewrite firstn_map. reflexivity.
Qed.

Lemma analyze_user_patterns_samples_witness :
  nlp demo_models (lit "Hello") = inr (one_word_doc (lit "Hello"))
  /\ sentence_lengths
       {| avg_sentence_length := Some (PyFloat 1);
          sentence_length_std := Some (PyFloat 0);
          sentence_lengths := Some [1%Z];
          vocab_complexity :=
            Some {| avg_word_length := PyFloat 5;
                    pos_distribution := [(lit "X", 1%Z)];
                    unique_word_ratio := PyFloat 1 |};
          sentence_structures := Some [lit "X"];
          common_phrases := None;
          other_keys := [] |}
     = Some (map word_count
               (firstn 50 (Doc.sents (one_word_doc (lit "Hello"))))).
Proof.
  split; [reflexivity|].
  apply (proj1 (analyze_user_patterns_samples unit demo_models (lit "Hello")
                  quiet_world (one_word_doc (lit "Hello")) _
                  eq_refl eq_refl)).
Defined.

(** ** The endpoint [/analyze-patterns] *)

(** X4: [/analyze-patterns] answers 500 with the exception of the parser
    when the parser raises, 500 with [ZeroDivisionError] when the parsed
    text has tokens and none of them is alphabetic, and the profile in
    every other case. *)
Theorem analyze_patterns_status (T : Type) (models : Models T)
  (request : HumanizationRequest) (w : World T) :
  (forall e, nlp models (text request) = inl e ->
             analyze_patterns models request w = (HTTPException 500 e, w))
  /\ (forall doc, nlp models (text request) = inr doc ->
        Doc.tokens doc <> [] ->
        filter Token.is_alpha (Doc.tokens doc) = [] ->
        analyze_patterns models request w
        = (HTTPException 500 ZeroDivisionError, w))
  /\ (forall doc, nlp models (text request) = inr doc ->
        Doc.tokens doc = [] \/ filter Token.is_alpha (Doc.tokens doc) <> [] ->
        exists patterns, analyze_patterns models request w = (OK patterns, w)).
Proof.
  destruct (analyze_user_patterns_cases T models (text request) w)
    as (A & B & C).
  unfold analyze_patterns. split; [|split].
  - intros e H. rewrite (A e H). reflexivity.
  - intros doc H Htok Halpha. rewrite (B doc H Htok Halpha). reflexivity.
  - intros doc H Hdoc. destruct (C doc H Hdoc) as [patterns E].
    exists patterns. rewrite E. reflexivity.
Qed.

(** ** Vocabulary Adapter *)

(** X5: the Vocabulary Adapter returns a text as it is exactly when none of
    the eight AI words occurs in it. *)
Theorem vocabulary_adaptation_fixed_point (t : str) (user_patterns : Dict) :
  vocabulary_adaptation t user_patterns = t <-> free_of vocab_replacements t.
Proof.
  unfold vocabulary_adaptation.
  apply apply_replacements_fixed, vocab_replacements_shrinking.
Qed.

Lemma apply_replacements_shorter (pairs : list (str * str)) :
  shrinking pairs ->
  forall s, Exists (fun p => contains (fst p) s = true) pairs ->
            List.length (apply_replacements pairs s) < List.length s.
Proof.
  induction 1 as [|p pairs Hp Hps IH]; intros s E; [inversion E|].
  change (apply_replacements (p :: pairs) s)
    with (apply_replacements pairs (replace (fst p) (snd p) s)).
  destruct (contains (fst p) s) eqn:C.
  - eapply Nat.le_lt_trans; [apply apply_replacements_length, Hps|].
    apply replace_shorter; assumption.
  - rewrite (replace_absent _ _ _ C). apply IH.
    inversion E as [? ? H | ? ? H]; subst; [unfold str in *; congruence | exact H].
Qed.

(** X6: the Vocabulary Adapter never lengthens a text, and shortens every
    text in which one of the eight AI words occurs. *)
Theorem vocabulary_adaptation_length (t : str) (user_patterns : Dict) :
  List.length (vocabulary_adaptation t user_patterns) <= List.length t
  /\ (Exists (fun p => contains (fst p) t = true) vocab_replacements ->
      List.length (vocabulary_adaptation t user_patterns) < List.length t).
Proof.
  unfold vocabulary_adaptation. split.
  - apply apply_replacements_length, vocab_replacements_shrinking.
  - apply apply_replacements_shorter, vocab_replacements_shrinking.
Qed.

(** ** Structural Rewriter *)

Lemma restructure_within_band (T : Type) (self : Models T) (a s : number)
  (longest : number) (sentences : list Span.t) (w : World T) :
  add a s = inr longest ->
  Forall (fun sent => gt (PyInt (word_count sent)) longest = false)
    sentences ->
  restructure self a s sentences w = (inr (map Span.text sentences), w).
Proof.
  intros Ha. destruct (sub_defined a s longest Ha) as [shortest Hs].
  induction 1 as [|sent rest Hg _ IH]; [reflexivity|].
  rewrite restructure_cons, Ha, Hg, Hs.
  unfold bind, ret. rewrite IH. reflexivity.
Qed.

(** X7: when the sum of the two length targets of the profile is defined
    (it is not when one target is an integer too large for a float and the
    other is a float) and no sentence of the text has more words than this
    sum, [structural_humanization] returns the sentences as they are,
    joined by single spaces, and does not call the rewrite model. *)
Theorem structural_humanization_within_band (T : Type) (self : Models T)
  (text : str) (d : Dict) (w : World T) (doc : Doc.t) (longest : number) :
  nlp self text = inr doc ->
  add (get (avg_sentence_length d) (PyInt 15))
      (get (sentence_length_std d) (PyInt 5)) = inr longest ->
  Forall (fun sent => gt (PyInt (word_count sent)) longest = false)
    (Doc.sents doc) ->
  structural_humanization self text d w
  = (inr (join (lit " ") (map Span.text (Doc.sents doc))), w).
Proof.
  intros Hdoc Ha H. unfold structural_humanization, bind, lift. rewrite Hdoc.
  rewrite (restructure_within_band T self _ _ longest _ w Ha H). reflexivity.
Qed.

Lemma structural_humanization_within_band_witness :
  nlp demo_models five_words = inr (one_word_doc five_words)
  /\ add (get (avg_sentence_length short_profile) (PyInt 15))
         (get (sentence_length_std short_profile) (PyInt 5))
     = inr (PyFloat 5.5)
  /\ Forall (fun sent => gt (PyInt (word_count sent)) (PyFloat 5.5) = false)
       (Doc.sents (one_word_doc five_words))
  /\ structural_humanization demo_models five_words short_profile quiet_world
     = (inr five_words, quiet_world).
Proof.
  assert (F : Forall
                (fun sent => gt (PyInt (word_count sent)) (PyFloat 5.5) = false)
                (Doc.sents (one_word_doc five_words)))
    by (repeat constructor).
  split; [reflexivity|]. split; [reflexivity|]. split; [exact F|].
  apply (structural_humanization_within_band unit demo_models
           five_words short_profile quiet_world
           (one_word_doc five_words) (PyFloat 5.5) eq_refl eq_refl F).
Defined.

(** An integer target is compared as it is, not as a machine integer: with
    the targets -2^63 and 100.5 every sentence is longer than their sum, and
    a sentence of five words goes to the rewrite model. *)
Example structural_humanization_negative_target :
  add (get (avg_sentence_length negative_profile) (PyInt 15))
      (get (sentence_length_std negative_profile) (PyInt 5))
  = inr (PyFloat (-0x1p+63))
  /\ gt (PyInt 5) (PyFloat (-0x1p+63)) = true
  /\ fst (structural_humanization demo_models five_words negative_profile
            quiet_world)
     = inr (lit "A. B.").
Proof. repeat split. Qed.

(** X8: with a profile that has no length targets, a text whose sentences
    have at most 20 words each is returned with its sentences as they are,
    joined by single spaces. *)
Theorem structural_humanization_default_band (T : Type) (self : Models T)
  (text : str) (d : Dict) (w : World T) (doc : Doc.t) :
  nlp self text = inr doc ->
  avg_sentence_length d = None ->
  sentence_length_std d = None ->
  Forall (fun sent => (word_count sent <= 20)%Z) (Doc.sents doc) ->
  structural_humanization self text d w
  = (inr (join (lit " ") (map Span.text (Doc.sents doc))), w).
Proof.
  intros Hdoc Havg Hstd H. unfold structural_humanization, bind, lift.
  rewrite Hdoc, Havg, Hstd. cbn [get].
  rewrite (restructure_within_band T self (PyInt 15) (PyInt 5) (PyInt 20) _ w);
    [reflexivity | reflexivity |].
  eapply Forall_impl; [|exact H]. intros sent L.
  cbv beta in L. cbv [gt lt]. apply Z.ltb_ge. lia.
Qed.

Lemma structural_humanization_default_band_witness :
  nlp demo_models (lit "We utilize it.")
  = inr (one_word_doc (lit "We utilize it."))
  /\ avg_sentence_length phrase_profile = None
  /\ sentence_length_std phrase_profile = None
  /\ Forall (fun sent => (word_count sent <= 20)%Z)
       (Doc.sents (one_word_doc (lit "We utilize it.")))
  /\ structural_humanization demo_models (lit "We utilize it.") phrase_profile
       quiet_world
     = (inr (lit "We utilize it."), quiet_world).
Proof.
  assert (F : Forall (fun sent => (word_count sent <= 20)%Z)
                (Doc.sents (one_word_doc (lit "We utilize it."))))
    by (repeat constructor; vm_compute; discriminate).
  split; [reflexivity|]. split; [reflexivity|]. split; [reflexivity|].
  split; [exact F|].
  apply (structural_humanization_default_band unit demo_models
           (lit "We utilize it.") phrase_profile quiet_world
           (one_word_doc (lit "We utilize it.")) eq_refl eq_refl eq_refl F).
Defined.

Lemma _split_sentence_unsplittable (T : Type) (self : Models T)
  (sentence : str) (w : World T) :
  (forall prompt st, exists result st',
      bart_generate self prompt st = (inr result, st')
      /\ List.length (nonblank_fragments result) <= 1) ->
  exists w1, _split_sentence self sentence w = (inr [sentence], w1).
Proof.
  intros Hm.
  destruct (Hm (split_prompt sentence) (sampler w)) as (result & st' & G & L).
  unfold _split_sentence, bind, generate, ret. rewrite G.
  eexists. f_equal. f_equal. unfold split_result, len.
  fold (nonblank_fragments result). rewrite length_map.
  destruct (Z.ltb_spec 1 (Z.of_nat (List.length (nonblank_fragments result))));
    [lia | reflexivity].
Qed.

Lemma restructure_unsplittable (T : Type) (self : Models T) (a s : number)
  (longest : number) :
  add a s = inr longest ->
  (forall prompt st, exists result st',
      bart_generate self prompt st = (inr result, st')
      /\ List.length (nonblank_fragments result) <= 1) ->
  forall (sentences : list Span.t) (w : World T),
    fst (restructure self a s sentences w) = inr (map Span.text sentences).
Proof.
  intros Ha Hm. destruct (sub_defined a s longest Ha) as [shortest Hs].
  induction sentences as [|sent rest IH]; intros w; [reflexivity|].
  rewrite restructure_cons, Ha, Hs.
  destruct (gt _ longest).
  - destruct (_split_sentence_unsplittable T self (Span.text sent) w Hm)
      as [w1 E].
    unfold bind at 1. rewrite E. unfold bind. specialize (IH w1).
    destruct (restructure self a s rest w1) as [[e | more] w2];
      cbn [fst] in IH; [discriminate IH|].
    injection IH as ->. reflexivity.
  - unfold bind. specialize (IH w).
    destruct (restructure self a s rest w) as [[e | more] w2];
      cbn [fst] in IH; [discriminate IH|].
    injection IH as ->. reflexivity.
Qed.

(** X9: when the sum of the two length targets of the profile is defined
    and the rewrite model never answers more than one non-blank fragment,
    [structural_humanization] returns the sentences of the text as they
    are, joined by single spaces, however long they are. *)
Theorem structural_humanization_unsplittable (T : Type) (self : Models T)
  (text : str) (d : Dict) (w : World T) (doc : Doc.t) (longest : number) :
  nlp self text = inr doc ->
  add (get (avg_sentence_length d) (PyInt 15))
      (get (sentence_length_std d) (PyInt 5)) = inr longest ->
  (forall prompt st, exists result st',
      bart_generate self prompt st = (inr result, st')
      /\ List.length (nonblank_fragments result) <= 1) ->
  fst (structural_humanization self text d w)
  = inr (join (lit " ") (map Span.text (Doc.sents doc))).
Proof.
  intros Hdoc Ha Hm. unfold structural_humanization, bind, lift. rewrite Hdoc.
  pose proof (restructure_unsplittable T self
                (get (avg_sentence_length d) (PyInt 15))
                (get (sentence_length_std d) (PyInt 5)) longest Ha Hm
                (Doc.sents doc) w)
    as R.
  destruct (restructure self _ _ (Doc.sents doc) w) as [[e | pieces] w1];
    cbn [fst] in R; [discriminate R|].
  injection R as ->. reflexivity.
Qed.

Lemma structural_humanization_unsplittable_witness :
  nlp mute_models wordy_sentence = inr (one_word_doc wordy_sentence)
  /\ add (get (avg_sentence_length phrase_profile) (PyInt 15))
         (get (sentence_length_std phrase_profile) (PyInt 5))
     = inr (PyInt 20)
  /\ (forall prompt st, exists result st',
        bart_generate mute_models prompt st = (inr result, st')
        /\ List.length (nonblank_fragments result) <= 1)
  /\ fst (structural_humanization mute_models wordy_sentence phrase_profile
            quiet_world)
     = inr wordy_sentence.
Proof.
  assert (Hm : forall prompt st, exists result st',
             bart_generate mute_models prompt st = (inr result, st')
             /\ List.length (nonblank_fragments result) <= 1).
  { intros prompt st. exists [], st. split; [reflexivity | vm_compute; lia]. }
  split; [reflexivity|]. split; [reflexivity|]. split; [exact Hm|].
  apply (structural_humanization_unsplittable unit mute_models wordy_sentence
           phrase_profile quiet_world (one_word_doc wordy_sentence)
           (PyInt 20) eq_refl eq_refl Hm).
Defined.

(** The sum of an integer target too large for a float and a float target
    raises at the first sentence, whatever the rewrite model would
    answer. *)
Example structural_humanization_overflow :
  structural_humanization mute_models wordy_sentence huge_profile quiet_world
  = (inl (OverflowError (lit "int too large to convert to float")),
     quiet_world).
Proof. vm_compute. reflexivity. Qed.

(** A sentence of more than 20 words goes to the rewrite model, whose two
    fragments replace it. *)
Example structural_humanization_splits :
  fst (structural_humanization demo_models wordy_sentence phrase_profile
         quiet_world)
  = inr (lit "A. B.").
Proof. reflexivity. Qed.

(** ** Authenticity Injector *)

Lemma replace_scan_first (old new b : str) :
  old <> [] ->
  replace_scan old new 0 (old ++ b) = new ++ replace_scan old new 0 b.
Proof.
  destruct old as [|a old]; [congruence|]. intros _.
  cbn [app replace_scan].
  change (a :: old ++ b) with ((a :: old) ++ b).
  rewrite startswith_app, replace_scan_skip.
  cbn [List.length Nat.pred].
  rewrite skipn_app, skipn_all, Nat.sub_diag. reflexivity.
Qed.

(** X10: when the model echoes the prompt in front of an answer in which
    the prompt does not occur again, [authenticity_injection] returns the
    answer stripped of surrounding whitespace, or its input text when the
    answer is blank. *)
Theorem authenticity_injection_echo (T : Type) (self : Models T)
  (text answer : str) (w : World T) (s' : T) :
  auth_generate self (authenticity_prompt text) (sampler w)
  = (inr (authenticity_prompt text ++ answer), s') ->
  contains (authenticity_prompt text) answer = false ->
  fst (authenticity_injection self text w)
  = inr (if truthy (strip answer) then strip answer else text).
Proof.
  intros H Hc. unfold authenticity_injection, bind, generate, ret.
  rewrite H. cbn [fst]. unfold remove_prompt.
  rewrite (contains_startswith _ _ (startswith_app _ _)).
  assert (R : replace (authenticity_prompt text) []
                (authenticity_prompt text ++ answer) = answer).
  { unfold replace at 1.
    destruct (authenticity_prompt text) as [|c p] eqn:Ep;
      [destruct (authenticity_prompt_nonempty text Ep)|].
    rewrite (replace_scan_first (c :: p) [] answer ltac:(discriminate)).
    cbn [app]. apply replace_scan_absent, Hc. }
  rewrite R. reflexivity.
Qed.

Lemma authenticity_injection_echo_witness :
  auth_generate echo_models (authenticity_prompt (lit "We use it."))
    (sampler quiet_world)
  = (inr (authenticity_prompt (lit "We use it.") ++ lit "  Well, ok. "), tt)
  /\ contains (authenticity_prompt (lit "We use it.")) (lit "  Well, ok. ")
     = false
  /\ fst (authenticity_injection echo_models (lit "We use it.") quiet_world)
     = inr (lit "Well, ok.").
Proof.
  split; [reflexivity|]. split; [reflexivity|].
  apply (authenticity_injection_echo unit echo_models (lit "We use it.")
           (lit "  Well, ok. ") quiet_world tt eq_refl eq_refl).
Defined.

(** ** Voice Integrator *)

(** X11: without phrases in the profile (no [common_phrases], or an empty
    list) [personal_voice_integration] returns the text as it is and makes
    no draw from the random source. *)
Theorem personal_voice_integration_identity (T : Type) (text : str)
  (d : Dict) (w : World T) :
  common_phrases d = None \/ common_phrases d = Some [] ->
  personal_voice_integration text d w = (inr text, w).
Proof.
  intros [H | H]; apply personal_voice_integration_no_phrases;
    rewrite H; reflexivity.
Qed.

Lemma personal_voice_integration_identity_witness :
  (common_phrases empty_dict = None \/ common_phrases empty_dict = Some [])
  /\ personal_voice_integration (lit "A.  B.") empty_dict eager_world
     = (inr (lit "A.  B."), eager_world).
Proof.
  split; [left; reflexivity|].
  apply (personal_voice_integration_identity unit (lit "A.  B.") empty_dict
           eager_world).
  left. reflexivity.
Defined.

Lemma subsequence_refl (A : Type) (l : list A) : subsequence l l.
Proof. induction l; constructor; assumption. Qed.

Lemma subsequence_app (A : Type) (l l' tail : list A) :
  subsequence l l' -> subsequence (l ++ tail) (l' ++ tail).
Proof.
  induction 1; cbn [app]; [apply subsequence_refl | |];
    constructor; assumption.
Qed.

Lemma trailing_phrases_subsequence (phrases fragments : list str) :
  forall g : np.RandomState,
    subsequence (map strip (filter (fun s => truthy (strip s)) fragments))
      (fst (trailing_phrases phrases g fragments)).
Proof.
  induction fragments as [|f rest IH]; intros g; [constructor|].
  cbn [trailing_phrases filter]. destruct (truthy (strip f)); [|apply IH].
  destruct (_ <? _)%float.
  - specialize (IH (np.advance (np.advance g))).
    destruct (trailing_phrases phrases _ rest) as [more g'].
    cbn [fst map] in *. constructor. constructor. exact IH.
  - specialize (IH (np.advance g)).
    destruct (trailing_phrases phrases _ rest) as [more g'].
    cbn [fst map] in *. constructor. exact IH.
Qed.

Lemma trailing_phrases_nonempty (phrases fragments : list str) :
  forall g : np.RandomState,
    Forall (fun x => x <> []) (fst (trailing_phrases phrases g fragments)).
Proof.
  induction fragments as [|f rest IH]; intros g; [constructor|].
  cbn [trailing_phrases]. destruct (truthy (strip f)) eqn:Ef; [|apply IH].
  apply truthy_true in Ef.
  destruct (_ <? _)%float.
  - specialize (IH (np.advance (np.advance g))).
    destruct (trailing_phrases phrases _ rest) as [more g'].
    cbn [fst] in *. constructor; [exact Ef|].
    constructor; [discriminate | exact IH].
  - specialize (IH (np.advance g)).
    destruct (trailing_phrases phrases _ rest) as [more g'].
    cbn [fst] in *. constructor; [exact Ef | exact IH].
Qed.

(** X12: with phrases, the text returned by [personal_voice_integration]
    is the join by [". "] of a list of non-empty pieces in which the
    non-blank fragments of the input text, stripped, all occur in their
    order: insertion adds clauses and never drops or reorders a
    fragment. *)
Theorem personal_voice_integration_keeps_fragments (T : Type) (text : str)
  (d : Dict) (phrases : list str) (w : World T) :
  common_phrases d = Some phrases -> phrases <> [] ->
  exists pieces,
    fst (personal_voice_integration text d w) = inr (join (lit ". ") pieces)
    /\ subsequence (stripped_fragments text) pieces
    /\ Forall (fun x => x <> []) pieces.
Proof.
  intros Hd Hne.
  rewrite (personal_voice_integration_spec T text d phrases w Hd Hne).
  eexists. split; [reflexivity|]. split.
  - unfold stripped_fragments.
    rewrite <- (stripped_last_fragment (split 46 text)
                  (split_on_nonempty (N.eqb 46) text)).
    apply subsequence_app, trailing_phrases_subsequence.
  - apply Forall_app. split; [apply trailing_phrases_nonempty|].
    unfold last_fragment.
    destruct (truthy (strip (last (split 46 text) []))) eqn:E;
      [|constructor].
    constructor; [apply truthy_true, E | constructor].
Qed.

Lemma personal_voice_integration_keeps_fragments_witness :
  common_phrases phrase_profile = Some [lit "you know"]
  /\ [lit "you know"] <> []
  /\ exists pieces,
       fst (personal_voice_integration (lit "One. Two. Three") phrase_profile
              eager_world) = inr (join (lit ". ") pieces)
       /\ subsequence (stripped_fragments (lit "One. Two. Three")) pieces
       /\ Forall (fun x => x <> []) pieces.
Proof.
  split; [reflexivity|]. split; [discriminate|].
  apply (personal_voice_integration_keeps_fragments unit
           (lit "One. Two. Three") phrase_profile [lit "you know"]
           eager_world eq_refl ltac:(discriminate)).
Defined.

Lemma trailing_phrases_draws (phrases fragments : list str) :
  forall g : np.RandomState,
    let g' := snd (trailing_phrases phrases g fragments) in
    np.samples g' = np.samples g
    /\ np.picks g' = np.picks g
    /\ np.position g <= np.position g'
       <= np.position g + 2 * List.length fragments.
Proof.
  induction fragments as [|f rest IH]; intros g; cbv zeta.
  - cbn [trailing_phrases snd List.length]. repeat split; lia.
  - cbn [trailing_phrases List.length].
    destruct (truthy (strip f)).
    + destruct (_ <? _)%float.
      * specialize (IH (np.advance (np.advance g))). cbv zeta in IH.
        destruct (trailing_phrases phrases _ rest) as [more g'].
        cbn [snd np.advance np.samples np.picks np.position] in *.
        destruct IH as (S1 & S2 & S3). repeat split; try assumption; lia.
      * specialize (IH (np.advance g)). cbv zeta in IH.
        destruct (trailing_phrases phrases _ rest) as [more g'].
        cbn [snd np.advance np.samples np.picks np.position] in *.
        destruct IH as (S1 & S2 & S3). repeat split; try assumption; lia.
    + specialize (IH g). cbv zeta in IH.
      destruct IH as (S1 & S2 & S3). repeat split; try assumption; lia.
Qed.

Lemma length_removelast (A : Type) (l : list A) :
  List.length (removelast l) = List.length l - 1.
Proof.
  induction l as [|x l IH]; [reflexivity|].
  destruct l as [|y l]; [reflexivity|].
  change (removelast (x :: y :: l)) with (x :: removelast (y :: l)).
  cbn [List.length] in *. lia.
Qed.

(** What a run of the Voice Integrator leaves of the world. *)
Lemma personal_voice_integration_frame (T : Type) (text : str) (d : Dict)
  (w : World T) :
  let w' := snd (personal_voice_integration text d w) in
  sampler w' = sampler w
  /\ yielded w' = yielded w
  /\ np.samples (np_random w') = np.samples (np_random w)
  /\ np.picks (np_random w') = np.picks (np_random w)
  /\ np.position (np_random w) <= np.position (np_random w')
     <= np.position (np_random w) + 2 * (List.length (split 46 text) - 1).
Proof.
  cbv zeta. destruct (common_phrases d) as [[|p phrases]|] eqn:E.
  - rewrite (personal_voice_integration_no_phrases T text d w)
      by (rewrite E; reflexivity).
    cbn [snd]. repeat split; lia.
  - rewrite (personal_voice_integration_spec T text d (p :: phrases) w E
               ltac:(discriminate)).
    cbn [snd set_random sampler yielded np_random].
    destruct (trailing_phrases_draws (p :: phrases)
                (removelast (split 46 text)) (np_random w)) as (S1 & S2 & S3).
    cbv zeta in S1, S2, S3. rewrite length_removelast in S3.
    repeat split; try assumption; lia.
  - rewrite (personal_voice_integration_no_phrases T text d w)
      by (rewrite E; reflexivity).
    cbn [snd]. repeat split; lia.
Qed.

(** X13: [personal_voice_integration] changes nothing of the world but the
    position of the random source, which it advances by at most two draws
    for every period of the text. *)
Theorem personal_voice_integration_draws (T : Type) (text : str) (d : Dict)
  (w : World T) :
  let w' := snd (personal_voice_integration text d w) in
  sampler w' = sampler w
  /\ yielded w' = yielded w
  /\ np.samples (np_random w') = np.samples (np_random w)
  /\ np.picks (np_random w') = np.picks (np_random w)
  /\ np.position (np_random w) <= np.position (np_random w')
     <= np.position (np_random w) + 2 * (List.length (split 46 text) - 1).
Proof. exact (personal_voice_integration_frame T text d w). Qed.

(** Stripping, and splitting what was joined. *)

Lemma lstrip_suffix (s : str) : exists ws, s = ws ++ lstrip s.
Proof.
  induction s as [|c s [ws IH]]; [exists []; reflexivity|].
  cbn [lstrip]. destruct (isspace c).
  - exists (c :: ws). cbn [app]. f_equal. exact IH.
  - exists []. reflexivity.
Qed.

Lemma lstrip_head (s : str) :
  match lstrip s with [] => True | c :: _ => isspace c = false end.
Proof.
  induction s as [|c s IH]; [exact I|].
  cbn [lstrip]. destruct (isspace c) eqn:E; [exact IH | exact E].
Qed.

Lemma lstrip_fixed (s : str) :
  match s with [] => True | c :: _ => isspace c = false end -> lstrip s = s.
Proof. destruct s as [|c s]; [reflexivity|]. cbn [lstrip]. intros ->. reflexivity. Qed.

Lemma lstrip_idempotent (s : str) : lstrip (lstrip s) = lstrip s.
Proof. apply lstrip_fixed, lstrip_head. Qed.

Lemma rstrip_prefix (s : str) : exists ws, s = rstrip s ++ ws.
Proof.
  destruct (lstrip_suffix (rev s)) as [ws E]. exists (rev ws).
  unfold rstrip. rewrite <- rev_app_distr, <- E, rev_involutive. reflexivity.
Qed.

Lemma rstrip_idempotent (s : str) : rstrip (rstrip s) = rstrip s.
Proof. unfold rstrip. rewrite rev_involutive, lstrip_idempotent. reflexivity. Qed.

Lemma strip_idempotent (s : str) : strip (strip s) = strip s.
Proof.
  unfold strip.
  assert (L : lstrip (rstrip (lstrip s)) = rstrip (lstrip s)).
  { apply lstrip_fixed.
    destruct (rstrip_prefix (lstrip s)) as [ws E].
    pose proof (lstrip_head s) as Hd. rewrite E in Hd.
    destruct (rstrip (lstrip s)); [exact I | exact Hd]. }
  rewrite L. apply rstrip_idempotent.
Qed.

Lemma strip_leading_space (c : N) (s : str) :
  isspace c = true -> strip (c :: s) = strip s.
Proof. intros H. unfold strip. cbn [lstrip]. rewrite H. reflexivity. Qed.

Lemma Forall_strip (P : N -> Prop) (s : str) : Forall P s -> Forall P (strip s).
Proof.
  intros H. unfold strip.
  destruct (lstrip_suffix s) as [ws E]. rewrite E in H.
  apply Forall_app in H as [_ H].
  destruct (rstrip_prefix (lstrip s)) as [ws' E']. rewrite E' in H.
  apply Forall_app in H as [H _]. exact H.
Qed.

Lemma split_on_free (p : N -> bool) (s : str) :
  Forall (Forall (fun c => p c = false)) (split_on p s).
Proof.
  induction s as [|c s IH]; cbn [split_on]; [repeat constructor|].
  destruct (p c) eqn:E; [constructor; [constructor | exact IH]|].
  destruct (split_on p s) as [|f fs]; [repeat constructor; exact E|].
  inversion IH; subst. constructor; [constructor; assumption | assumption].
Qed.

Lemma split_on_cons_free (p : N -> bool) (c : N) (s : str) :
  p c = false ->
  split_on p (c :: s)
  = (c :: hd [] (split_on p s)) :: tl (split_on p s).
Proof.
  intros E. cbn [split_on]. rewrite E.
  pose proof (split_on_nonempty p s) as N.
  destruct (split_on p s); [congruence | reflexivity].
Qed.

Lemma split_on_app_sep (p : N -> bool) (a b : str) (sep : N) :
  Forall (fun c => p c = false) a -> p sep = true ->
  split_on p (a ++ sep :: b) = a :: split_on p b.
Proof.
  intros Ha Hsep. induction Ha as [|c a Hc _ IH]; cbn [app].
  - cbn [split_on]. rewrite Hsep. reflexivity.
  - rewrite (split_on_cons_free p c _ Hc), IH. reflexivity.
Qed.

Lemma split_on_clean (p : N -> bool) (a : str) :
  Forall (fun c => p c = false) a -> split_on p a = [a].
Proof.
  induction 1 as [|c a Hc _ IH]; [reflexivity|].
  rewrite (split_on_cons_free p c _ Hc), IH. reflexivity.
Qed.

(** Splitting at the periods what was joined by [". "], when no piece has a
    period: the pieces, each but the first behind a space. *)
Lemma split_join (x : str) (rest : list str) :
  Forall (Forall (fun c => N.eqb 46 c = false)) (x :: rest) ->
  split 46 (join (lit ". ") (x :: rest)) = x :: map (cons 32%N) rest.
Proof.
  revert x. induction rest as [|y rest IH]; intros x H.
  - inversion H; subst. cbn [join map]. apply split_on_clean. assumption.
  - inversion H as [|? ? Hx Hrest]; subst.
    change (join (lit ". ") (x :: y :: rest))
      with (x ++ 46%N :: 32%N :: join (lit ". ") (y :: rest)).
    unfold split. rewrite (split_on_app_sep _ x _ 46%N Hx eq_refl).
    rewrite (split_on_cons_free (N.eqb 46) 32%N _ eq_refl).
    fold (split 46 (join (lit ". ") (y :: rest))). rewrite (IH y Hrest).
    reflexivity.
Qed.

Lemma stripped_fragments_kept (text : str) :
  Forall kept_piece (stripped_fragments text).
Proof.
  unfold stripped_fragments. apply Forall_forall. intros x I.
  apply in_map_iff in I as (f & <- & I).
  apply filter_In in I as [I B].
  split; [apply strip_idempotent|]. split; [exact B|].
  apply Forall_strip.
  pose proof (split_on_free (N.eqb 46) text) as F.
  rewrite Forall_forall in F. apply F, I.
Qed.

Lemma stripped_after_space (rest : list str) :
  Forall kept_piece rest ->
  map strip (filter (fun s => truthy (strip s)) (map (cons 32%N) rest)) = rest.
Proof.
  induction 1 as [|y rest (S & B & _) _ IH]; [reflexivity|].
  cbn [map filter].
  rewrite (strip_leading_space 32%N y eq_refl), S, B.
  cbn [map]. rewrite (strip_leading_space 32%N y eq_refl), S, IH.
  reflexivity.
Qed.

Lemma stripped_fragments_join (pieces : list str) :
  Forall kept_piece pieces ->
  stripped_fragments (join (lit ". ") pieces) = pieces.
Proof.
  intros H. destruct pieces as [|x rest]; [reflexivity|].
  unfold stripped_fragments. rewrite split_join.
  - inversion H as [|? ? (S & B & _) Hrest]; subst.
    cbn [filter]. rewrite S, B. cbn [map].
    rewrite S, (stripped_after_space rest Hrest). reflexivity.
  - eapply Forall_impl; [|exact H]. intros y (_ & _ & D). exact D.
Qed.

Lemma personal_voice_integration_quiet_text (T : Type) (text : str) (d : Dict)
  (phrases : list str) (w : World T) :
  common_phrases d = Some phrases -> phrases <> [] ->
  (forall k, (np.samples (np_random w) k <? 0.3)%float = false) ->
  fst (personal_voice_integration text d w)
  = inr (join (lit ". ") (stripped_fragments text)).
Proof.
  intros Hd Hne Q.
  rewrite (personal_voice_integration_spec T text d phrases w Hd Hne).
  cbn [fst]. rewrite (trailing_phrases_quiet phrases _ _ Q).
  rewrite (stripped_last_fragment (split 46 text)
             (split_on_nonempty (N.eqb 46) text)).
  reflexivity.
Qed.

(** X14: on a random source of which no draw is below 0.3, a second run of
    [personal_voice_integration] on the text returned by a first run
    returns that text again: what the first run normalizes stays as it
    is. *)
Theorem personal_voice_integration_settles (T : Type) (text : str) (d : Dict)
  (phrases : list str) (w : World T) :
  common_phrases d = Some phrases -> phrases <> [] ->
  (forall k, (np.samples (np_random w) k <? 0.3)%float = false) ->
  forall (once : str) (w1 : World T),
    personal_voice_integration text d w = (inr once, w1) ->
    fst (personal_voice_integration once d w1) = inr once.
Proof.
  intros Hd Hne Q once w1 R.
  pose proof (personal_voice_integration_quiet_text T text d phrases w Hd Hne Q)
    as E1.
  pose proof (personal_voice_integration_frame T text d w) as D.
  cbv zeta in D. rewrite R in E1, D. cbn [fst snd] in E1, D.
  destruct D as (_ & _ & S & _).
  assert (Q1 : forall k, (np.samples (np_random w1) k <? 0.3)%float = false)
    by (intros k; rewrite S; apply Q).
  rewrite (personal_voice_integration_quiet_text T once d phrases w1 Hd Hne Q1).
  assert (E : once = join (lit ". ") (stripped_fragments text)) by congruence.
  rewrite E at 1.
  rewrite (stripped_fragments_join _ (stripped_fragments_kept text)).
  rewrite E. reflexivity.
Qed.

Lemma personal_voice_integration_settles_witness :
  common_phrases phrase_profile = Some [lit "you know"]
  /\ [lit "you know"] <> []
  /\ (forall k, (np.samples (np_random quiet_world) k <? 0.3)%float = false)
  /\ personal_voice_integration (lit "A.  B.") phrase_profile quiet_world
     = (inr (lit "A. B"), set_random quiet_world (np.advance (np.advance quiet_random)))
  /\ fst (personal_voice_integration (lit "A. B") phrase_profile
            (set_random quiet_world (np.advance (np.advance quiet_random))))
     = inr (lit "A. B").
Proof.
  split; [reflexivity|]. split; [discriminate|]. split; [reflexivity|].
  split; [reflexivity|].
  apply (personal_voice_integration_settles unit (lit "A.  B.") phrase_profile
           [lit "you know"] quiet_world eq_refl ltac:(discriminate)
           (fun _ => eq_refl) (lit "A. B")
           (set_random quiet_world (np.advance (np.advance quiet_random))) eq_refl).
Defined.

(** ** The generator, further *)

(** The two shapes of a stream. *)
Lemma stream_shape (T : Type) (models : Models T)
  (request : HumanizationRequest) (rng : np.RandomState) (s : T) :
  (exists k e,
      1 <= k <= 6
      /\ generate_humanized_text models request rng s
         = firstn k progress_events ++ [error e])
  \/ (exists t sim p,
        generate_humanized_text models request rng s
        = progress_events ++ [complete t sim p; DONE]).
Proof.
  unfold generate_humanized_text.
  pose proof (humanize_steps_stream T models request (fresh_world rng s)) as S.
  destruct (humanize_steps models request (fresh_world rng s)) as [[e | u] w'].
  - left. destruct S as (k & K & Y). exists k, e. split; [exact K|].
    rewrite Y. reflexivity.
  - right. destruct S as (t & sim & p & Y & _). exists t, sim, p. exact Y.
Qed.

Lemma not_in_progress (k : nat) (x : event) :
  In x (firstn k progress_events) -> is_progress x.
Proof.
  intros I. pose proof (firstn_progress_events k) as F.
  rewrite Forall_forall in F. apply F, I.
Qed.

(** X15: the sentinel [DONE] is in the stream exactly when a [complete]
    event is, and exactly when no [error] event is; the last event of a
    stream is the sentinel or an [error] event. *)
Theorem done_means_complete (T : Type) (models : Models T)
  (request : HumanizationRequest) (rng : np.RandomState) (s : T) :
  let events := generate_humanized_text models request rng s in
  (In DONE events <-> exists t sim p, In (complete t sim p) events)
  /\ (In DONE events <-> forall e, ~ In (error e) events)
  /\ (last events DONE = DONE \/ exists e, last events DONE = error e).
Proof.
  cbv zeta.
  destruct (stream_shape T models request rng s)
    as [(k & e & K & E) | (t & sim & p & E)]; rewrite E.
  - assert (ND : ~ In DONE (firstn k progress_events ++ [error e])).
    { intros I. apply in_app_or in I as [I | [I | []]];
        [exact (not_in_progress k _ I) | discriminate I]. }
    split; [|split].
    + split; [tauto|]. intros (t & sim & p & I).
      apply in_app_or in I as [I | [I | []]];
        [destruct (not_in_progress k _ I) | discriminate I].
    + split; [tauto|]. intros H. exfalso. apply (H e).
      apply in_or_app. right. left. reflexivity.
    + right. exists e. apply last_last.
  - assert (D : In DONE (progress_events ++ [complete t sim p; DONE])).
    { apply in_or_app. right. right. left. reflexivity. }
    split; [|split].
    + split; [|intros _; exact D]. intros _. exists t, sim, p.
      apply in_or_app. right. left. reflexivity.
    + split; [|intros _; exact D]. intros _ e I.
      apply in_app_or in I as [I | [I | [I | []]]];
        [exact (not_in_progress 6 _ I) | discriminate I | discriminate I].
    + left. change (progress_events ++ [complete t sim p; DONE])
        with ((progress_events ++ [complete t sim p]) ++ [DONE]).
      apply last_last.
Qed.

Example stream_reverted :
  generate_humanized_text strict_models request_with_profile quiet_random tt
  = progress_events
    ++ [complete (lit "We utilize it.") 0%float phrase_profile; DONE].
Proof. vm_compute. reflexivity. Qed.

Lemma complete_event_profile (T : Type) (models : Models T)
  (request : HumanizationRequest) (rng : np.RandomState) (s : T)
  (t : str) (similarity : float) (p d : Dict) :
  In (complete t similarity p) (generate_humanized_text models request rng s) ->
  user_patterns request = Some d -> dict_truthy d = true -> p = d.
Proof.
  unfold generate_humanized_text.
  pose proof (humanize_steps_stream T models request (fresh_world rng s)) as S.
  destruct (humanize_steps models request (fresh_world rng s)) as [[e | u] w'].
  - destruct S as (k & _ & Y). rewrite Y. cbn [fresh_world yielded app].
    intros I. apply in_app_or in I as [I | [I | []]];
      [destruct (not_in_progress k _ I) | discriminate I].
  - destruct S as (t' & sim' & p' & Y & P & _). rewrite Y.
    cbn [fresh_world yielded app]. intros I.
    apply in_app_or in I as [I | [I | [I | []]]];
      [destruct (not_in_progress 6 _ I) | | discriminate I].
    injection I as -> -> ->. exact (P d).
Qed.

(** X16: a [complete] event whose similarity score is below 0.85 carries
    the text of the request itself, whatever the stages made of it, and the
    profile that the request supplied, if it supplied one. *)
Theorem reverted_complete_event (T : Type) (models : Models T)
  (request : HumanizationRequest) (rng : np.RandomState) (s : T)
  (t : str) (similarity : float) (p : Dict) :
  In (complete t similarity p) (generate_humanized_text models request rng s) ->
  (similarity <? 0.85)%float = true ->
  t = text request
  /\ (forall d, user_patterns request = Some d -> dict_truthy d = true ->
                p = d).
Proof.
  intros I L. split.
  - exact (complete_event_reverts_whole T models request rng s t similarity p
             I L).
  - intros d. exact (complete_event_profile T models request rng s t
                      similarity p d I).
Qed.

Lemma reverted_complete_event_witness :
  In (complete (lit "We utilize it.") 0%float phrase_profile)
    (generate_humanized_text strict_models request_with_profile
       quiet_random tt)
  /\ (0 <? 0.85)%float = true
  /\ lit "We utilize it." = text request_with_profile.
Proof.
  assert (I : In (complete (lit "We utilize it.") 0%float phrase_profile)
                (generate_humanized_text strict_models request_with_profile
                   quiet_random tt)).
  { rewrite stream_reverted. apply in_or_app. right. left. reflexivity. }
  split; [exact I|]. split; [reflexivity|].
  apply (proj1 (reverted_complete_event unit strict_models
                  request_with_profile quiet_random tt (lit "We utilize it.")
                  0%float phrase_profile I eq_refl)).
Defined.

(** X17: a supplied profile that is an empty dictionary counts as no
    profile: the stream is that of the request without it. *)
Theorem empty_profile_is_no_profile (T : Type) (models : Models T)
  (request : HumanizationRequest) (d : Dict) (rng : np.RandomState) (s : T) :
  user_patterns request = Some d -> dict_truthy d = false ->
  generate_humanized_text models request rng s
  = generate_humanized_text models (without_profile request) rng s.
Proof.
  intros Hd Ht. unfold generate_humanized_text, humanize_steps.
  cbn [without_profile user_patterns text]. rewrite Hd, Ht. reflexivity.
Qed.

Lemma empty_profile_is_no_profile_witness :
  user_patterns request_empty_profile = Some empty_dict
  /\ dict_truthy empty_dict = false
  /\ generate_humanized_text demo_models request_empty_profile quiet_random tt
     = generate_humanized_text demo_models
         (without_profile request_empty_profile) quiet_random tt.
Proof.
  split; [reflexivity|]. split; [reflexivity|].
  apply (empty_profile_is_no_profile unit demo_models request_empty_profile
           empty_dict quiet_random tt eq_refl eq_refl).
Defined.

Lemma patterns_stage_result (T : Type) (models : Models T)
  (request : HumanizationRequest) (w : World T) :
  (match user_patterns request with
   | None => analyze_user_patterns models (text request)
   | Some d =>
       if negb (dict_truthy d)
       then analyze_user_patterns models (text request)
       else ret d
   end) w
  = if profile_supplied request
    then (inr (match user_patterns request with
               | Some d => d
               | None => empty_dict
               end), w)
    else analyze_user_patterns models (text request) w.
Proof.
  unfold profile_supplied. destruct (user_patterns request) as [d|];
    [|reflexivity].
  destruct (dict_truthy d); reflexivity.
Qed.

(** X18: when the parser raises [e] on the text of the request, the stream
    is [analyzing], [error e] if the request supplies no profile, and
    [analyzing], [structural], [error e] if it supplies one. *)
Theorem parser_failure_stream (T : Type) (models : Models T)
  (request : HumanizationRequest) (rng : np.RandomState) (s : T) (e : exn) :
  nlp models (text request) = inl e ->
  generate_humanized_text models request rng s
  = if profile_supplied request
    then firstn 2 progress_events ++ [error e]
    else firstn 1 progress_events ++ [error e].
Proof.
  intros H. unfold generate_humanized_text, humanize_steps.
  unfold bind at 1. unfold yield at 1. cbv beta iota.
  unfold bind at 1. rewrite patterns_stage_result.
  destruct (profile_supplied request).
  - cbv beta iota. unfold bind at 1. unfold yield at 1. cbv beta iota.
    unfold bind at 1. unfold structural_humanization at 1.
    unfold bind at 1, lift at 1. rewrite H. reflexivity.
  - unfold analyze_user_patterns. unfold bind at 1, lift at 1. rewrite H.
    reflexivity.
Qed.

Lemma parser_failure_stream_witness :
  nlp unloaded_models (text request_with_profile)
  = inl (Exception (lit "'nlp'"))
  /\ generate_humanized_text unloaded_models request_with_profile
       quiet_random tt
     = firstn 2 progress_events ++ [error (Exception (lit "'nlp'"))].
Proof.
  split; [reflexivity|].
  apply (parser_failure_stream unit unloaded_models request_with_profile
           quiet_random tt (Exception (lit "'nlp'")) eq_refl).
Defined.

(** X19: for a request without a profile, a text that is parsed into tokens
    none of which is alphabetic ends the stream right after [analyzing],
    with the event [error ZeroDivisionError]. *)
Theorem no_alpha_stream (T : Type) (models : Models T)
  (request : HumanizationRequest) (rng : np.RandomState) (s : T)
  (doc : Doc.t) :
  profile_supplied request = false ->
  nlp models (text request) = inr doc ->
  Doc.tokens doc <> [] ->
  filter Token.is_alpha (Doc.tokens doc) = [] ->
  generate_humanized_text models request rng s
  = firstn 1 progress_events ++ [error ZeroDivisionError].
Proof.
  intros Hp H Htok Halpha. unfold generate_humanized_text, humanize_steps.
  unfold bind at 1. unfold yield at 1. cbv beta iota.
  unfold bind at 1. rewrite patterns_stage_result, Hp.
  destruct (analyze_user_patterns_cases T models (text request)
              {| np_random := np_random (fresh_world rng s);
                 sampler := sampler (fresh_world rng s);
                 yielded := yielded (fresh_world rng s)
                            ++ [progress (lit "analyzing")
                                  (lit "Analyzing writing patterns...")] |})
    as (_ & B & _).
  rewrite (B doc H Htok Halpha). reflexivity.
Qed.

Lemma no_alpha_stream_witness :
  profile_supplied request_numeral = false
  /\ nlp numeral_models (text request_numeral) = inr numeral_doc
  /\ Doc.tokens numeral_doc <> []
  /\ filter Token.is_alpha (Doc.tokens numeral_doc) = []
  /\ generate_humanized_text numeral_models request_numeral quiet_random tt
     = firstn 1 progress_events ++ [error ZeroDivisionError].
Proof.
  split; [reflexivity|]. split; [reflexivity|]. split; [discriminate|].
  split; [reflexivity|].
  apply (no_alpha_stream unit numeral_models request_numeral
           quiet_random tt numeral_doc eq_refl eq_refl
           ltac:(discriminate) eq_refl).
Defined.

(** X24: every stream begins with the [analyzing] event and has between two
    and eight events. *)
Theorem stream_bounds (T : Type) (models : Models T)
  (request : HumanizationRequest) (rng : np.RandomState) (s : T) :
  let events := generate_humanized_text models request rng s in
  hd_error events
  = Some (progress (lit "analyzing") (lit "Analyzing writing patterns..."))
  /\ 2 <= List.length events <= 8.
Proof.
  cbv zeta.
  destruct (stream_shape T models request rng s)
    as [(k & e & K & E) | (t & sim & p & E)]; rewrite E.
  - do 7 (destruct k as [|k];
          [first [lia | split; [reflexivity | simpl; lia]]|]).
    lia.
  - split; [reflexivity | simpl; lia].
Qed.

(** The random source is read by the Voice Integrator only. *)

Lemma rng_blind_ret (T A : Type) (a : A) : rng_blind (@ret T A a).
Proof. intros w g. reflexivity. Qed.

Lemma rng_blind_lift (T A : Type) (r : exn + A) : rng_blind (@lift T A r).
Proof. intros w g. reflexivity. Qed.

Lemma rng_blind_yield (T : Type) (e : event) : rng_blind (@yield T e).
Proof. intros w g. reflexivity. Qed.

Lemma rng_blind_generate (T : Type) (model : str -> T -> (exn + str) * T)
  (prompt : str) :
  rng_blind (generate model prompt).
Proof.
  intros w g. unfold generate. cbn [set_random sampler np_random yielded].
  destruct (model prompt (sampler w)) as [r s]. reflexivity.
Qed.

Lemma rng_blind_bind_result (T A B : Type) (m : M T A) (k : A -> M T B) :
  rng_blind m ->
  (forall w a, fst (m w) = inr a -> rng_blind (k a)) ->
  rng_blind (bind m k).
Proof.
  intros Hm Hk w g. unfold bind. rewrite (Hm w g).
  specialize (Hk w).
  destruct (m w) as [[e | a] w']; cbn [fst snd] in *; [reflexivity|].
  apply (Hk a eq_refl).
Qed.

Lemma rng_blind_bind (T A B : Type) (m : M T A) (k : A -> M T B) :
  rng_blind m -> (forall a, rng_blind (k a)) -> rng_blind (bind m k).
Proof.
  intros Hm Hk. apply rng_blind_bind_result; [exact Hm|].
  intros w a _. apply Hk.
Qed.

Ltac blind_steps :=
  repeat first
    [ apply rng_blind_ret | apply rng_blind_lift | apply rng_blind_yield
    | apply rng_blind_generate
    | apply rng_blind_bind; [|intros ?] ].

Lemma rng_blind_analyze_user_patterns (T : Type) (self : Models T)
  (text : str) :
  rng_blind (analyze_user_patterns self text).
Proof. unfold analyze_user_patterns. blind_steps. Qed.

Lemma rng_blind__split_sentence (T : Type) (self : Models T) (sentence : str) :
  rng_blind (_split_sentence self sentence).
Proof. unfold _split_sentence. blind_steps. Qed.

Lemma rng_blind_restructure (T : Type) (self : Models T) (a s : number)
  (sentences : list Span.t) :
  rng_blind (restructure self a s sentences).
Proof.
  induction sentences as [|sent rest IH]; cbn [restructure];
    [apply rng_blind_ret|].
  apply rng_blind_bind; [apply rng_blind_lift|]. intros longest.
  apply rng_blind_bind.
  - destruct (gt _ longest); [apply rng_blind__split_sentence|].
    apply rng_blind_bind; [apply rng_blind_lift|]. intros shortest.
    destruct (lt _ shortest); apply rng_blind_ret.
  - intros pieces. apply rng_blind_bind; [exact IH|].
    intros more. apply rng_blind_ret.
Qed.

Lemma rng_blind_structural_humanization (T : Type) (self : Models T)
  (text : str) (d : Dict) :
  rng_blind (structural_humanization self text d).
Proof.
  unfold structural_humanization.
  apply rng_blind_bind; [apply rng_blind_lift|]. intros doc.
  apply rng_blind_bind; [apply rng_blind_restructure|]. intros pieces.
  apply rng_blind_ret.
Qed.

Lemma rng_blind_authenticity_injection (T : Type) (self : Models T)
  (text : str) :
  rng_blind (authenticity_injection self text).
Proof. unfold authenticity_injection. blind_steps. Qed.

Lemma rng_blind_voice_without_phrases (T : Type) (text : str) (d : Dict) :
  get (common_phrases d) [] = [] ->
  rng_blind (@personal_voice_integration T text d).
Proof.
  intros H w g.
  rewrite !(personal_voice_integration_no_phrases T text d _ H). reflexivity.
Qed.

Lemma analyze_user_patterns_no_phrases (T : Type) (self : Models T)
  (text : str) (w : World T) (patterns : Dict) :
  fst (analyze_user_patterns self text w) = inr patterns ->
  common_phrases patterns = None.
Proof.
  unfold analyze_user_patterns, bind, lift, ret.
  destruct (nlp self text) as [e | doc]; [discriminate|].
  destruct (_analyze_vocabulary_complexity self doc) as [e | vocab];
    [discriminate|].
  cbn [fst]. intros H.
  assert (E : forall a b : Dict, @inr exn Dict a = inr b -> a = b)
    by (intros a b Hab; congruence).
  apply E in H. rewrite <- H. reflexivity.
Qed.

Lemma rng_blind_humanize_steps (T : Type) (models : Models T)
  (request : HumanizationRequest) :
  (forall d, user_patterns request = Some d -> dict_truthy d = true ->
             get (common_phrases d) [] = []) ->
  rng_blind (humanize_steps models request).
Proof.
  intros Hp. unfold humanize_steps.
  apply rng_blind_bind; [apply rng_blind_yield|]. intros _.
  apply rng_blind_bind_result.
  { destruct (user_patterns request) as [d|];
      [destruct (negb (dict_truthy d))|];
      first [apply rng_blind_analyze_user_patterns | apply rng_blind_ret]. }
  intros w a Ha.
  assert (Hphr : get (common_phrases a) [] = []).
  { destruct (user_patterns request) as [d|] eqn:Ed.
    - destruct (dict_truthy d) eqn:Et; cbn [negb] in Ha.
      + unfold ret in Ha. cbn [fst] in Ha.
        assert (a = d) by congruence. subst a. apply (Hp d eq_refl Et).
      + rewrite (analyze_user_patterns_no_phrases T models _ w a Ha).
        reflexivity.
    - rewrite (analyze_user_patterns_no_phrases T models _ w a Ha).
      reflexivity. }
  apply rng_blind_bind; [apply rng_blind_yield|]. intros _.
  apply rng_blind_bind; [apply rng_blind_structural_humanization|].
  intros t1.
  apply rng_blind_bind; [apply rng_blind_yield|]. intros _.
  apply rng_blind_bind; [apply rng_blind_yield|]. intros _.
  apply rng_blind_bind; [apply rng_blind_authenticity_injection|].
  intros t2.
  apply rng_blind_bind; [apply rng_blind_yield|]. intros _.
  apply rng_blind_bind; [apply rng_blind_voice_without_phrases, Hphr|].
  intros t3.
  apply rng_blind_bind; [apply rng_blind_yield|]. intros _.
  apply rng_blind_bind; [apply rng_blind_lift|]. intros [final_text sim].
  blind_steps.
Qed.

(** X20: when the request supplies no profile, or a profile without
    phrases, the stream does not depend on the random source. *)
Theorem stream_ignores_random_source (T : Type) (models : Models T)
  (request : HumanizationRequest) (rng rng' : np.RandomState) (s : T) :
  (forall d, user_patterns request = Some d -> dict_truthy d = true ->
             get (common_phrases d) [] = []) ->
  generate_humanized_text models request rng s
  = generate_humanized_text models request rng' s.
Proof.
  intros Hp. unfold generate_humanized_text.
  change (fresh_world rng' s) with (set_random (fresh_world rng s) rng').
  rewrite (rng_blind_humanize_steps T models request Hp
             (fresh_world rng s) rng').
  destruct (humanize_steps models request (fresh_world rng s))
    as [[e | u] w']; reflexivity.
Qed.

Lemma stream_ignores_random_source_witness :
  (forall d, user_patterns request_without_profile = Some d ->
             dict_truthy d = true -> get (common_phrases d) [] = [])
  /\ generate_humanized_text demo_models request_without_profile
       quiet_random tt
     = generate_humanized_text demo_models request_without_profile
         eager_random tt.
Proof.
  assert (Hp : forall d, user_patterns request_without_profile = Some d ->
                 dict_truthy d = true -> get (common_phrases d) [] = [])
    by (intros d H; discriminate H).
  split; [exact Hp|].
  apply (stream_ignores_random_source unit demo_models request_without_profile
           quiet_random eager_random tt Hp).
Defined.

(** ** Startup and [/health] *)

Lemma getitem_setitem (H : Type) (key key' : str) (value : H)
  (models : registry H) :
  getitem key' (setitem key value models)
  = if Py.eqb key key' then Some value else getitem key' models.
Proof.
  induction models as [|[k v] rest IH]; cbn [setitem getitem].
  - reflexivity.
  - destruct (Py.eqb k key) eqn:Ek; cbn [getitem].
    + apply eqb_eq in Ek. subst k. destruct (Py.eqb key key'); reflexivity.
    + destruct (Py.eqb k key') eqn:Ek'; [|exact IH].
      apply eqb_eq in Ek'. subst k.
      destruct (Py.eqb key key') eqn:E; [|reflexivity].
      apply eqb_eq in E. subst key'. rewrite eqb_refl in Ek. discriminate Ek.
Qed.

Lemma assign_done (H : Type) (key : str) (loaded : load_error + H)
  (models models' : registry H) :
  assign key loaded models = (None, models') ->
  exists h, loaded = inr h /\ models' = setitem key h models.
Proof.
  unfold assign. destruct loaded as [e | h]; intros E; [discriminate E|].
  exists h. split; [reflexivity | congruence].
Qed.

Lemma and_then_done (H : Type)
  (first second : registry H -> option load_error * registry H)
  (models models' : registry H) :
  and_then first second models = (None, models') ->
  exists models1,
    first models = (None, models1) /\ second models1 = (None, models').
Proof.
  unfold and_then. destruct (first models) as [[e|] models1]; intros E;
    [discriminate E|].
  exists models1. split; [reflexivity | exact E].
Qed.

Lemma load_nlp_done (H : Type) (hub : Hub H) (models models' : registry H) :
  load_nlp hub models = (None, models') ->
  exists h,
    models' = setitem (lit "nlp") h models
    /\ (spacy_load hub (lit "en_core_web_lg") = inr h
        \/ (exists msg, spacy_load hub (lit "en_core_web_lg")
                        = inl (OSError msg))
           /\ spacy_load hub (lit "en_core_web_sm") = inr h).
Proof.
  unfold load_nlp.
  destruct (spacy_load hub (lit "en_core_web_lg")) as [[msg | msg] | h];
    intros E.
  - apply assign_done in E as (h & L & ->). exists h.
    split; [reflexivity|]. right. split; [exists msg; reflexivity | exact L].
  - discriminate E.
  - exists h. split; [congruence | left; reflexivity].
Qed.

(** What a successful startup leaves in the registry. *)
Lemma initialize_models_done (H : Type) (hub : Hub H)
  (models models' : registry H) :
  initialize_models hub models = (None, models') ->
  exists h1 h2 h3 h4 h5 h6 h7 h8,
    models'
    = setitem (lit "auth_model") h8
        (setitem (lit "auth_tokenizer") h7
           (setitem (lit "nlp") h6
              (setitem (lit "semantic_model") h5
                 (setitem (lit "bart_model") h4
                    (setitem (lit "bart_tokenizer") h3
                       (setitem (lit "style_model") h2
                          (setitem (lit "style_tokenizer") h1 models)))))))
    /\ (spacy_load hub (lit "en_core_web_lg") = inr h6
        \/ (exists msg, spacy_load hub (lit "en_core_web_lg")
                        = inl (OSError msg))
           /\ spacy_load hub (lit "en_core_web_sm") = inr h6).
Proof.
  unfold initialize_models. intros E.
  apply and_then_done in E as (m1 & E1 & E).
  apply and_then_done in E as (m2 & E2 & E).
  apply and_then_done in E as (m3 & E3 & E).
  apply and_then_done in E as (m4 & E4 & E).
  apply and_then_done in E as (m5 & E5 & E).
  apply and_then_done in E as (m6 & E6 & E).
  apply and_then_done in E as (m7 & E7 & E8).
  apply assign_done in E1 as (h1 & _ & ->).
  apply assign_done in E2 as (h2 & _ & ->).
  apply assign_done in E3 as (h3 & _ & ->).
  apply assign_done in E4 as (h4 & _ & ->).
  apply assign_done in E5 as (h5 & _ & ->).
  apply load_nlp_done in E6 as (h6 & -> & L).
  apply assign_done in E7 as (h7 & _ & ->).
  apply assign_done in E8 as (h8 & _ & ->).
  exists h1, h2, h3, h4, h5, h6, h7, h8. split; [reflexivity | exact L].
Qed.

(** X21: after a startup that did not raise, each of the eight keys is
    bound in [models]; started on the empty dictionary, [models] has the
    eight keys in the order of the source and [/health] reports 8 loaded
    models. *)
Theorem initialize_models_loads_eight (H : Type) (hub : Hub H)
  (models models' : registry H) :
  initialize_models hub models = (None, models') ->
  (forall key, In key model_keys -> getitem key models' <> None)
  /\ (models = [] ->
      map fst models' = model_keys
      /\ health_check models' = (lit "healthy", 8%Z)).
Proof.
  intros E.
  apply initialize_models_done in E
    as (h1 & h2 & h3 & h4 & h5 & h6 & h7 & h8 & -> & _).
  split.
  - intros key I. rewrite !getitem_setitem.
    unfold model_keys in I.
    repeat (destruct I as [<- | I]; [vm_compute; discriminate|]).
    destruct I.
  - intros ->. split; reflexivity.
Qed.

Lemma initialize_models_loads_eight_witness :
  initialize_models full_hub []
  = (None,
     [ (lit "style_tokenizer", lit "google/flan-t5-large");
       (lit "style_model", lit "google/flan-t5-large");
       (lit "bart_tokenizer", lit "facebook/bart-large");
       (lit "bart_model", lit "facebook/bart-large");
       (lit "semantic_model", lit "sentence-transformers/all-MiniLM-L6-v2");
       (lit "nlp", lit "en_core_web_lg");
       (lit "auth_tokenizer", lit "t5-small");
       (lit "auth_model", lit "t5-small") ])
  /\ health_check
       [ (lit "style_tokenizer", lit "google/flan-t5-large");
         (lit "style_model", lit "google/flan-t5-large");
         (lit "bart_tokenizer", lit "facebook/bart-large");
         (lit "bart_model", lit "facebook/bart-large");
         (lit "semantic_model", lit "sentence-transformers/all-MiniLM-L6-v2");
         (lit "nlp", lit "en_core_web_lg");
         (lit "auth_tokenizer", lit "t5-small");
         (lit "auth_model", lit "t5-small") ]
     = (lit "healthy", 8%Z).
Proof.
  split; [reflexivity|].
  apply (proj2 (proj2 (initialize_models_loads_eight str full_hub [] _
                         eq_refl) eq_refl)).
Defined.

(** X22: after a startup that did not raise, [models['nlp']] is the large
    spaCy model when it loads, and the small one when loading the large one
    raises [OSError]; a startup in which loading the large model raises
    another exception raises that exception. *)
Theorem initialize_models_nlp_fallback (H : Type) (hub : Hub H)
  (models : registry H) :
  (forall models', initialize_models hub models = (None, models') ->
     match spacy_load hub (lit "en_core_web_lg") with
     | inr large => getitem (lit "nlp") models' = Some large
     | inl (OSError _) =>
         exists small,
           spacy_load hub (lit "en_core_web_sm") = inr small
           /\ getitem (lit "nlp") models' = Some small
     | inl (OtherError _) => False
     end)
  /\ (forall msg,
        spacy_load hub (lit "en_core_web_lg") = inl (OtherError msg) ->
        fst (initialize_models hub models) <> None).
Proof.
  split.
  - intros models' E.
    apply initialize_models_done in E
      as (h1 & h2 & h3 & h4 & h5 & h6 & h7 & h8 & -> & L).
    assert (G : forall m : registry H,
      getitem (lit "nlp")
        (setitem (lit "auth_model") h8
           (setitem (lit "auth_tokenizer") h7 (setitem (lit "nlp") h6 m)))
      = Some h6).
    { intros m. rewrite !getitem_setitem. reflexivity. }
    rewrite G.
    destruct L as [L | [[msg L] L']]; rewrite L; [reflexivity|].
    exists h6. split; [exact L' | reflexivity].
  - intros msg L E.
    destruct (initialize_models hub models) as [[e|] models'] eqn:I;
      [discriminate E|].
    apply initialize_models_done in I
      as (h1 & h2 & h3 & h4 & h5 & h6 & h7 & h8 & _ & [L' | [[msg' L'] _]]);
      congruence.
Qed.

Example initialize_models_small_hub :
  getitem (lit "nlp") (snd (initialize_models small_hub []))
  = Some (lit "en_core_web_sm").
Proof. reflexivity. Qed.

(** The startup stops at the load that raises, with [k] keys assigned. *)
Ltac startup_fails E k :=
  injection E as _ <-; exists k; split; [lia | split; reflexivity].

(** X23: a startup on the empty dictionary that raises leaves in [models]
    the keys assigned before the failing load, fewer than eight, and
    [/health] still answers [healthy], with their number. *)
Theorem initialize_models_partial (H : Type) (hub : Hub H)
  (e : load_error) (models' : registry H) :
  initialize_models hub [] = (Some e, models') ->
  exists k,
    k < 8
    /\ map fst models' = firstn k model_keys
    /\ health_check models' = (lit "healthy", Z.of_nat k).
Proof.
  unfold initialize_models, and_then, assign, load_nlp. intros E.
  destruct (AutoTokenizer_from_pretrained hub (lit "google/flan-t5-large"))
    as [e1 | h1]; [startup_fails E 0|].
  destruct (AutoModelForSeq2SeqLM_from_pretrained hub
              (lit "google/flan-t5-large")) as [e2 | h2];
    [startup_fails E 1|].
  destruct (AutoTokenizer_from_pretrained hub (lit "facebook/bart-large"))
    as [e3 | h3]; [startup_fails E 2|].
  destruct (AutoModelForSeq2SeqLM_from_pretrained hub
              (lit "facebook/bart-large")) as [e4 | h4];
    [startup_fails E 3|].
  destruct (SentenceTransformer hub
              (lit "sentence-transformers/all-MiniLM-L6-v2")) as [e5 | h5];
    [startup_fails E 4|].
  destruct (spacy_load hub (lit "en_core_web_lg")) as [[msg | msg] | h6].
  - destruct (spacy_load hub (lit "en_core_web_sm")) as [e6 | h6];
      [startup_fails E 5|].
    destruct (AutoTokenizer_from_pretrained hub (lit "t5-small"))
      as [e7 | h7]; [startup_fails E 6|].
    destruct (AutoModelForSeq2SeqLM_from_pretrained hub (lit "t5-small"))
      as [e8 | h8]; [startup_fails E 7 | discriminate E].
  - startup_fails E 5.
  - destruct (AutoTokenizer_from_pretrained hub (lit "t5-small"))
      as [e7 | h7]; [startup_fails E 6|].
    destruct (AutoModelForSeq2SeqLM_from_pretrained hub (lit "t5-small"))
      as [e8 | h8]; [startup_fails E 7 | discriminate E].
Qed.

Lemma initialize_models_partial_witness :
  initialize_models broken_hub []
  = (Some (OtherError (lit "out of memory")),
     [ (lit "style_tokenizer", lit "google/flan-t5-large");
       (lit "style_model", lit "google/flan-t5-large");
       (lit "bart_tokenizer", lit "facebook/bart-large") ])
  /\ exists k,
       k < 8
       /\ map fst
            [ (lit "style_tokenizer", lit "google/flan-t5-large");
              (lit "style_model", lit "google/flan-t5-large");
              (lit "bart_tokenizer", lit "facebook/bart-large") ]
          = firstn k model_keys
       /\ health_check
            [ (lit "style_tokenizer", lit "google/flan-t5-large");
              (lit "style_model", lit "google/flan-t5-large");
              (lit "bart_tokenizer", lit "facebook/bart-large") ]
          = (lit "healthy", Z.of_nat k).
Proof.
  split; [reflexivity|].
  apply (initialize_models_partial str broken_hub
           (OtherError (lit "out of memory")) _ eq_refl).
Defined.

(** ** Coherence Gate, further *)

(** Two vectors of different lengths: [np.dot] raises before any norm is
    taken. *)
Example coherence_preservation_shapes :
  np.dot (sequential np.float32) [1%float; 0%float]
    [1%float; 0%float; 0%float]
  = inl (Exception
           (lit "shapes (2,) and (3,) not aligned: 2 (dim 0) != 3 (dim 0)")).
Proof. reflexivity. Qed.

Lemma sequential_vdot_zero (t : np.floating) (n : nat) :
  np.vdot (sequential t) (repeat 0%float n) (repeat 0%float n) = 0%float.
Proof.
  cbn [np.vdot sequential]. unfold sequential_sum.
  assert (G : forall l : list float,
            Forall (fun x => x = 0%float) l ->
            fold_left (fun acc x => np.cast t (acc + x)%float) l 0%float
            = 0%float).
  { induction 1 as [|x l -> _ IH]; [reflexivity|].
    cbn [fold_left]. destruct t; exact IH. }
  apply G. induction n as [|n IH]; [constructor|].
  cbn [repeat combine map]. constructor; [destruct t; reflexivity | exact IH].
Qed.

(** X26: when both texts are embedded as a zero vector, whose dot product
    with itself is 0, the division by the zero norms does not raise: the
    similarity is NaN, in float32 as in float64, which is not below 0.85,
    and the gate returns the modified text. *)
Theorem coherence_preservation_zero_vectors (T : Type) (self : Models T)
  (original modified : str) (n : nat) :
  semantic_encode self original = inr (repeat 0%float n) ->
  semantic_encode self modified = inr (repeat 0%float n) ->
  np.vdot (numpy self) (repeat 0%float n) (repeat 0%float n) = 0%float ->
  coherence_preservation self original modified = inr (modified, nan).
Proof.
  intros Ho Hm Hz. unfold coherence_preservation, similarity_of, np.dot.
  rewrite Ho, Hm, Nat.eqb_refl.
  unfold np.divide, np.multiply, np.linalg_norm. rewrite Hz.
  destruct (np.dtype (numpy self)); reflexivity.
Qed.

Lemma coherence_preservation_zero_vectors_witness :
  semantic_encode silent_models (lit "We utilize it.") = inr (repeat 0%float 3)
  /\ semantic_encode silent_models (lit "We use it") = inr (repeat 0%float 3)
  /\ np.vdot (numpy silent_models) (repeat 0%float 3) (repeat 0%float 3)
     = 0%float
  /\ coherence_preservation silent_models (lit "We utilize it.")
       (lit "We use it")
     = inr (lit "We use it", nan).
Proof.
  split; [reflexivity|]. split; [reflexivity|]. split; [reflexivity|].
  apply (coherence_preservation_zero_vectors unit silent_models
           (lit "We utilize it.") (lit "We use it") 3 eq_refl eq_refl eq_refl).
Defined.

(** ** Structural Rewriter, further *)

(** X27: what [_split_sentence] returns is the sentence alone, or at least
    two fragments, each a non-empty stripped text without a period, closed
    by one period. *)
Theorem _split_sentence_shape (T : Type) (self : Models T)
  (sentence : str) (w : World T) (pieces : list str) :
  fst (_split_sentence self sentence w) = inr pieces ->
  pieces = [sentence]
  \/ (2 <= List.length pieces
      /\ Forall (fun f => exists x, f = x ++ lit "." /\ kept_piece x) pieces).
Proof.
  unfold _split_sentence, bind, generate, ret.
  destruct (bart_generate self (split_prompt sentence) (sampler w))
    as [[e | result] s']; cbn [fst]; intros H; [discriminate H|].
  assert (E : split_result sentence result = pieces) by congruence.
  clear H. subst pieces. unfold split_result.
  destruct (Z.ltb_spec 1
              (len (map (fun s => strip s ++ lit ".")
                      (filter (fun s => truthy (strip s)) (split 46 result)))))
    as [L | L]; [right | left; reflexivity].
  split; [unfold len, str in *; lia|].
  apply Forall_forall. intros f I.
  apply in_map_iff in I as (x & <- & I). apply filter_In in I as [I B].
  exists (strip x). split; [reflexivity|].
  split; [apply strip_idempotent|]. split; [exact B|].
  apply Forall_strip.
  pose proof (split_on_free (N.eqb 46) result) as F.
  rewrite Forall_forall in F. apply F, I.
Qed.

Lemma _split_sentence_shape_witness :
  fst (_split_sentence demo_models long_sentence quiet_world)
  = inr [lit "A."; lit "B."]
  /\ ([lit "A."; lit "B."] = [long_sentence]
      \/ (2 <= List.length [lit "A."; lit "B."]
          /\ Forall (fun f => exists x, f = x ++ lit "." /\ kept_piece x)
               [lit "A."; lit "B."])).
Proof.
  split; [reflexivity|].
  apply (_split_sentence_shape unit demo_models long_sentence quiet_world
           [lit "A."; lit "B."] eq_refl).
Defined.
